(** * computeSales.py: the sale costing engine, the aggregator and the report

    A shallow embedding of [src/computeSales.py] and the properties of its
    costing engine ([compute_sale_cost]), of the aggregation loop of [main]
    and of the report written by [write_results].

    Python values are the ones [json.load] produces.  Floating-point numbers
    are IEEE 754 binary64, computed with the Gallina reference operations of
    [SpecFloat]; integers are unbounded.  Exceptions are explicit results. *)

From Stdlib Require Import ZArith List String Ascii Bool Lia DecimalString.
From Stdlib Require Import SpecFloat.
Import ListNotations.

Set Warnings "-register-all".

Open Scope string_scope.
Open Scope list_scope.
Open Scope Z_scope.

(** String concatenation, kept apart from the lists' [++]. *)
Infix "+:+" := String.append (at level 60, right associativity).

(** ** Exceptions and results *)

Inductive exn :=
| AttributeError
| TypeError
| ValueError
| KeyError
| IndexError
| OverflowError
| OSError
| RecursionError.

Inductive result (A : Type) :=
| Ok (a : A)
| Raise (e : exn).

Arguments Ok {A} a.
Arguments Raise {A} e.

Definition rbind {A B} (r : result A) (k : A -> result B) : result B :=
  match r with
  | Ok a => k a
  | Raise e => Raise e
  end.

Declare Scope py_scope.
Delimit Scope py_scope with py.
Notation "x <- e ;; k" := (rbind e (fun x => k))
  (at level 61, e at next level, right associativity) : py_scope.
Open Scope py_scope.

Definition is_ok {A} (r : result A) : bool :=
  match r with Ok _ => true | Raise _ => false end.

(** ** Binary64 floating point, as Python's [float] *)

Module Float64.

Definition float := spec_float.

Definition prec : Z := 53.
Definition emax : Z := 1024.

Definition fmul : float -> float -> float := SFmul prec emax.
Definition fadd : float -> float -> float := SFadd prec emax.
Definition fsub : float -> float -> float := SFsub prec emax.

Definition nan : float := S754_nan.
Definition zero : float := S754_zero false.
Definition one : float := S754_finite false 4503599627370496 (-52).

(** The integer [z], rounded to the nearest float (ties to even); an
    infinity when [z] is out of range. *)
Definition of_Z (z : Z) : float := binary_normalize prec emax z 0 false.

Definition is_inf (f : float) : bool :=
  match f with S754_infinity _ => true | _ => false end.

Definition is_zero (f : float) : bool :=
  match f with S754_zero _ => true | _ => false end.

(** The sign bit; [false] for a NaN. *)
Definition sign_bit (f : float) : bool :=
  match f with
  | S754_zero s | S754_infinity s | S754_finite s _ _ => s
  | S754_nan => false
  end.

(** [f > 0] and [f < 0] as Python compares them. *)
Definition is_positive (f : float) : bool :=
  match f with
  | S754_infinity false | S754_finite false _ _ => true
  | _ => false
  end.

Definition is_negative (f : float) : bool :=
  match f with
  | S754_infinity true | S754_finite true _ _ => true
  | _ => false
  end.

(** The decimal number [m * 10^e] ([m >= 0]) with sign [neg], correctly
    rounded: what [float] makes of a decimal literal. *)
Definition of_decimal (neg : bool) (m e : Z) : float :=
  match m with
  | Zpos p =>
      if 0 <=? e then binary_round prec emax neg (Z.to_pos (Zpos p * 10 ^ e)) 0
      else
        let '(q, e', l) := SFdiv_core_binary prec emax (Zpos p) 0 (10 ^ (- e)) 0 in
        binary_round_aux prec emax neg q e' l
  | _ => S754_zero neg
  end.

(** *** Fixed-point formatting: the format specification [.<d>f] *)

Definition round_half_even (num den : Z) : Z :=
  let q := num / den in
  let r := num mod den in
  match 2 * r ?= den with
  | Lt => q
  | Gt => q + 1
  | Eq => if Z.even q then q else q + 1
  end.

(** [|f| * 10^d] rounded to an integer, for a finite [f = m * 2^e]. *)
Definition scaled (d : nat) (m : positive) (e : Z) : Z :=
  let n := Zpos m * 10 ^ Z.of_nat d in
  if 0 <=? e then n * 2 ^ e else round_half_even n (2 ^ (- e)).

Fixpoint zeros (n : nat) : string :=
  match n with
  | O => ""
  | S n' => String "0" (zeros n')
  end.

Definition digits (n : Z) : string := NilZero.string_of_int (Z.to_int n).

(** The digits of the non-negative [n] with a point before the last [d]. *)
Definition with_point (d : nat) (n : Z) : string :=
  let s := digits n in
  let s := zeros (S d - String.length s) +:+ s in
  let k := (String.length s - d)%nat in
  match d with
  | O => s
  | _ => substring 0 k s +:+ "." +:+ substring k d s
  end.

Definition format_fixed (d : nat) (f : float) : string :=
  match f with
  | S754_nan => "nan"
  | S754_infinity s => if s then "-inf" else "inf"
  | S754_zero s => (if s then "-" else "") +:+ with_point d 0
  | S754_finite s m e => (if s then "-" else "") +:+ with_point d (scaled d m e)
  end.

End Float64.

Import Float64.

(** ** JSON documents as Python values *)

Inductive value :=
| VNone
| VBool (b : bool)
| VInt (z : Z)
| VFloat (f : float)
| VStr (s : string)
| VList (l : list value)
| VDict (d : list (string * value)).

(** A [dict] in insertion order; [json.load] leaves no duplicate key. *)
Definition dict := list (string * value).

(** The numbers a total can be: [total_cost] starts as the [int] 0 and
    becomes a [float] with the first amount added. *)
Inductive number :=
| NInt (z : Z)
| NFloat (f : float).

Fixpoint lookup (k : string) (d : dict) : option value :=
  match d with
  | [] => None
  | (k', v) :: d' => if String.eqb k k' then Some v else lookup k d'
  end.

(** [d.get(k, default)] *)
Definition dict_get (d : dict) (k : string) (default : value) : value :=
  match lookup k d with
  | Some v => v
  | None => default
  end.

(** [o.get(k, default)]: only a [dict] has the method. *)
Definition py_get (o : value) (k : string) (default : value) : result value :=
  match o with
  | VDict d => Ok (dict_get d k default)
  | _ => Raise AttributeError
  end.

(** [bool(v)] *)
Definition truthy (v : value) : bool :=
  match v with
  | VNone => false
  | VBool b => b
  | VInt z => negb (z =? 0)
  | VFloat f => negb (is_zero f)
  | VStr s => negb (String.eqb s "")
  | VList l => match l with [] => false | _ => true end
  | VDict d => match d with [] => false | _ => true end
  end.

(** [iter(v)], run to the end: a list gives its elements, a dict its keys,
    a string its characters. *)
Definition py_iter (v : value) : result (list value) :=
  match v with
  | VList l => Ok l
  | VDict d => Ok (map (fun kv => VStr (fst kv)) d)
  | VStr s => Ok (map (fun c => VStr (String c "")) (list_ascii_of_string s))
  | _ => Raise TypeError
  end.

(** *** Equality and membership

    A number seen exactly: a NaN, an infinity, or [z * 2^e]. *)
Inductive exact :=
| XNan
| XInf (s : bool)
| XFin (z e : Z).

Definition exact_of (v : value) : option exact :=
  match v with
  | VBool b => Some (XFin (if b then 1 else 0) 0)
  | VInt z => Some (XFin z 0)
  | VFloat S754_nan => Some XNan
  | VFloat (S754_infinity s) => Some (XInf s)
  | VFloat (S754_zero _) => Some (XFin 0 0)
  | VFloat (S754_finite s m e) => Some (XFin (if s then Zneg m else Zpos m) e)
  | _ => None
  end.

Definition exact_eqb (x y : exact) : bool :=
  match x, y with
  | XNan, XNan => true
  | XInf s, XInf s' => Bool.eqb s s'
  | XFin z e, XFin z' e' =>
      let m := Z.min e e' in z * 2 ^ (e - m) =? z' * 2 ^ (e' - m)
  | _, _ => false
  end.

(** [a is b or a == b], the test behind [in] and behind the comparison of
    containers.  Every NaN of a loaded document is the decoder's one NaN
    object, so two of them pass the test. *)
Fixpoint py_eq (a b : value) {struct a} : bool :=
  match a, b with
  | VNone, VNone => true
  | VStr s, VStr s' => String.eqb s s'
  | VList l, VList l' =>
      (fix all2 (l l' : list value) {struct l} : bool :=
         match l, l' with
         | [], [] => true
         | x :: r, y :: r' => py_eq x y && all2 r r'
         | _, _ => false
         end) l l'
  | VDict d, VDict d' =>
      Nat.eqb (List.length d) (List.length d') &&
      (fix each (d : list (string * value)) : bool :=
         match d with
         | [] => true
         | (k, v) :: r =>
             match lookup k d' with
             | Some v' => py_eq v v'
             | None => false
             end && each r
         end) d
  | _, _ =>
      match exact_of a, exact_of b with
      | Some x, Some y => exact_eqb x y
      | _, _ => false
      end
  end.

Fixpoint is_substring (p s : string) : bool :=
  String.prefix p s ||
  match s with
  | String _ s' => is_substring p s'
  | EmptyString => false
  end.

(** [x in c] *)
Definition py_contains (c x : value) : result bool :=
  match c with
  | VDict d =>
      match x with
      | VList _ | VDict _ => Raise TypeError
      | VStr s => Ok (match lookup s d with Some _ => true | None => false end)
      | _ => Ok false
      end
  | VList l => Ok (existsb (py_eq x) l)
  | VStr s =>
      match x with
      | VStr p => Ok (is_substring p s)
      | _ => Raise TypeError
      end
  | VNone | VBool _ | VInt _ | VFloat _ => Raise TypeError
  end.

(** The position [i] of a sequence of length [len] selects, counting from
    the end when negative. *)
Definition position (len i : Z) : option nat :=
  if (0 <=? i) && (i <? len) then Some (Z.to_nat i)
  else if (- len <=? i) && (i <? 0) then Some (Z.to_nat (len + i))
  else None.

Definition subscript {A} (l : list A) (i : Z) : result A :=
  match position (Z.of_nat (List.length l)) i with
  | Some n => match nth_error l n with Some a => Ok a | None => Raise IndexError end
  | None => Raise IndexError
  end.

Definition as_index (x : value) : option Z :=
  match x with
  | VInt i => Some i
  | VBool b => Some (if b then 1 else 0)
  | _ => None
  end.

(** [c[x]] *)
Definition py_getitem (c x : value) : result value :=
  match c with
  | VDict d =>
      match x with
      | VList _ | VDict _ => Raise TypeError
      | VStr s => match lookup s d with Some v => Ok v | None => Raise KeyError end
      | _ => Raise KeyError
      end
  | VList l =>
      match as_index x with
      | Some i => subscript l i
      | None => Raise TypeError
      end
  | VStr s =>
      match as_index x with
      | Some i => ch <- subscript (list_ascii_of_string s) i ;; Ok (VStr (String ch ""))
      | None => Raise TypeError
      end
  | VNone | VBool _ | VInt _ | VFloat _ => Raise TypeError
  end.

(** [float(z)] for an [int]. *)
Definition float_of_int (z : Z) : result float :=
  let f := of_Z z in
  if is_inf f then Raise OverflowError else Ok f.

Definition float_of_bool (b : bool) : float := if b then one else zero.

(** [a + b] on numbers. *)
Definition num_add (a b : number) : result number :=
  match a, b with
  | NInt x, NInt y => Ok (NInt (x + y))
  | NInt x, NFloat g => f <- float_of_int x ;; Ok (NFloat (fadd f g))
  | NFloat f, NInt y => g <- float_of_int y ;; Ok (NFloat (fadd f g))
  | NFloat f, NFloat g => Ok (NFloat (fadd f g))
  end.

(** [price * quantity] for a float [price]. *)
Definition float_mul (price : float) (quantity : value) : result float :=
  match quantity with
  | VBool b => Ok (fmul price (float_of_bool b))
  | VInt z => q <- float_of_int z ;; Ok (fmul price q)
  | VFloat q => Ok (fmul price q)
  | VNone | VStr _ | VList _ | VDict _ => Raise TypeError
  end.

Definition string_of_Z (z : Z) : string := NilZero.string_of_int (Z.to_int z).

(** ** The built-ins that read and write text

    [float] on a string and [repr] on a float or a string depend on Unicode
    tables and on the runtime's shortest-digits algorithm.  The engine is
    stated over any implementation of them; [ascii_builtins] below is the
    one for ASCII text. *)

Class Builtins := {
  str_to_float : string -> option float;
  repr_float : float -> string;
  repr_str : string -> string
}.

Section Text.

Context `{Builtins}.

(** [float(v)] *)
Definition py_float (v : value) : result float :=
  match v with
  | VBool b => Ok (float_of_bool b)
  | VInt z => float_of_int z
  | VFloat f => Ok f
  | VStr s => match str_to_float s with Some f => Ok f | None => Raise ValueError end
  | VNone | VList _ | VDict _ => Raise TypeError
  end.

(** [repr(v)] *)
Fixpoint py_repr (v : value) : string :=
  match v with
  | VNone => "None"
  | VBool b => if b then "True" else "False"
  | VInt z => string_of_Z z
  | VFloat f => repr_float f
  | VStr s => repr_str s
  | VList l => "[" +:+ String.concat ", " (map py_repr l) +:+ "]"
  | VDict d =>
      "{" +:+ String.concat ", "
               (map (fun kv => repr_str (fst kv) +:+ ": " +:+ py_repr (snd kv)) d)
          +:+ "}"
  end.

(** [str(v)], what an f-string field shows. *)
Definition py_str (v : value) : string :=
  match v with
  | VStr s => s
  | _ => py_repr v
  end.

(** [f"{n:.<d>f}"] for a number. *)
Definition format_number (d : nat) (n : number) : result string :=
  match n with
  | NInt z => f <- float_of_int z ;; Ok (format_fixed d f)
  | NFloat f => Ok (format_fixed d f)
  end.

End Text.

(** ** The sale costing engine: [compute_sale_cost] *)

Section Engine.

Context `{Builtins}.

Definition invalid_item_message (sale_id : value) : string :=
  "Invalid item in sale " +:+ py_str sale_id +:+ ": "
    +:+ "Missing product name or quantity".

Definition not_found_message (product_name : value) : string :=
  "Product '" +:+ py_str product_name +:+ "' not found in price catalogue".

Definition invalid_price_message (product_name : value) : string :=
  "Invalid price for product '" +:+ py_str product_name +:+ "' "
    +:+ "in price catalogue".

(** The [try] block of the loop body: the new [total_cost]. *)
Definition add_item_cost (price_catalogue : value) (total_cost : number)
    (product_name quantity : value) : result number :=
  entry <- py_getitem price_catalogue product_name ;;
  price <- py_float entry ;;
  amount <- float_mul price quantity ;;
  num_add total_cost (NFloat amount).

(** One turn of the loop, from the state [(total_cost, errors)]. *)
Definition item_step (sale price_catalogue : value)
    (acc : number * list string) (item : value)
  : result (number * list string) :=
  let '(total_cost, errors) := acc in
  product_name <- py_get item "product" VNone ;;
  quantity <- py_get item "quantity" (VInt 0) ;;
  if negb (truthy product_name) || negb (truthy quantity) then
    sale_id <- py_get sale "id" (VStr "Unknown") ;;
    Ok (total_cost, errors ++ [invalid_item_message sale_id])
  else
    present <- py_contains price_catalogue product_name ;;
    if negb present then
      Ok (total_cost, errors ++ [not_found_message product_name])
    else
      match add_item_cost price_catalogue total_cost product_name quantity with
      | Ok total_cost' => Ok (total_cost', errors)
      | Raise ValueError | Raise TypeError =>
          Ok (total_cost, errors ++ [invalid_price_message product_name])
      | Raise e => Raise e
      end.

(** The [for] loop over the items. *)
Fixpoint item_loop (sale price_catalogue : value)
    (items : list value) (acc : number * list string)
  : result (number * list string) :=
  match items with
  | [] => Ok acc
  | item :: rest =>
      acc' <- item_step sale price_catalogue acc item ;;
      item_loop sale price_catalogue rest acc'
  end.

Definition compute_sale_cost (sale price_catalogue : value)
  : result (number * list string) :=
  field <- py_get sale "items" (VList []) ;;
  items <- py_iter field ;;
  item_loop sale price_catalogue items (NInt 0, []).

(** The accumulation loop of [main] over the sales record. *)
Fixpoint sale_loop (price_catalogue : value) (sales_record : list value)
    (acc : number * list string) : result (number * list string) :=
  match sales_record with
  | [] => Ok acc
  | sale :: rest =>
      let '(total_cost, all_errors) := acc in
      r <- compute_sale_cost sale price_catalogue ;;
      let '(sale_cost, errors) := r in
      total_cost' <- num_add total_cost sale_cost ;;
      sale_loop price_catalogue rest (total_cost', all_errors ++ errors)
  end.

Definition total_of_sales (price_catalogue : value) (sales_record : list value)
  : result (number * list string) :=
  sale_loop price_catalogue sales_record (NInt 0, []).

(** *** The report: [write_results] *)

Definition report_lines (total_cost : number) (execution_time : float)
    (errors : list string) : result (list string) :=
  total <- format_number 2 total_cost ;;
  let head :=
    [ "=== Sales Computation Results ===";
      "Total Cost: $" +:+ total;
      "Execution Time: " +:+ format_fixed 3 execution_time +:+ " seconds" ] in
  match errors with
  | _ :: _ =>
      Ok ((head ++ [String "010" "Errors encountered during execution:"]) ++ errors)
  | [] =>
      Ok (head ++ [String "010" "No errors encountered during execution."])
  end.

End Engine.

(** ** The text built-ins on ASCII strings *)

Module AsciiText.

Definition code (c : ascii) : Z := Z.of_nat (nat_of_ascii c).

Definition is_space (c : ascii) : bool :=
  (code c =? 32) || ((9 <=? code c) && (code c <=? 13)).

Definition is_digit (c : ascii) : bool := (48 <=? code c) && (code c <=? 57).

Definition lower (c : ascii) : ascii :=
  if (65 <=? code c) && (code c <=? 90)
  then ascii_of_nat (nat_of_ascii c + 32) else c.

Fixpoint lstrip (cs : list ascii) : list ascii :=
  match cs with
  | c :: cs' => if is_space c then lstrip cs' else cs
  | [] => []
  end.

Definition strip (cs : list ascii) : list ascii :=
  rev (lstrip (rev (lstrip cs))).

Definition Z_of_digits (ds : list ascii) : Z :=
  fold_left (fun acc c => 10 * acc + (code c - 48)) ds 0.

(** *** [float(s)]: the grammar of the language reference

    [digit (["_"] digit)*] after a first digit: the digits and the rest. *)
Fixpoint more_digits (cs : list ascii) : list ascii * list ascii :=
  match cs with
  | c :: cs' =>
      if is_digit c then
        let '(ds, r) := more_digits cs' in (c :: ds, r)
      else if Ascii.eqb c "_" then
        match cs' with
        | c2 :: cs'' =>
            if is_digit c2 then
              let '(ds, r) := more_digits cs'' in (c2 :: ds, r)
            else ([], cs)
        | [] => ([], cs)
        end
      else ([], cs)
  | [] => ([], [])
  end.

Definition digitpart (cs : list ascii) : option (list ascii * list ascii) :=
  match cs with
  | c :: cs' =>
      if is_digit c then
        let '(ds, r) := more_digits cs' in Some (c :: ds, r)
      else None
  | [] => None
  end.

(** [[digitpart] "." digitpart | digitpart ["."]]: integer digits,
    fraction digits, rest. *)
Definition pointfloat (cs : list ascii)
  : option (list ascii * list ascii * list ascii) :=
  match digitpart cs with
  | Some (ip, r) =>
      match r with
      | "."%char :: r' =>
          match digitpart r' with
          | Some (fp, r'') => Some (ip, fp, r'')
          | None => Some (ip, [], r')
          end
      | _ => Some (ip, [], r)
      end
  | None =>
      match cs with
      | "."%char :: r' =>
          match digitpart r' with
          | Some (fp, r'') => Some ([], fp, r'')
          | None => None
          end
      | _ => None
      end
  end.

Definition signed (cs : list ascii) : bool * list ascii :=
  match cs with
  | "-"%char :: r => (true, r)
  | "+"%char :: r => (false, r)
  | _ => (false, cs)
  end.

(** The exponent part, if any: its value; [None] for a malformed or
    trailing text. *)
Definition exponent (cs : list ascii) : option Z :=
  match cs with
  | [] => Some 0
  | c :: r =>
      if Ascii.eqb (lower c) "e" then
        let '(neg, r') := signed r in
        match digitpart r' with
        | Some (ds, []) => Some (if neg then - Z_of_digits ds else Z_of_digits ds)
        | _ => None
        end
      else None
  end.

Definition parse_float (cs : list ascii) : option float :=
  let '(neg, body) := signed (strip cs) in
  let word := string_of_list_ascii (map lower body) in
  if String.eqb word "inf" || String.eqb word "infinity" then
    Some (S754_infinity neg)
  else if String.eqb word "nan" then Some S754_nan
  else
    match pointfloat body with
    | Some (ip, fp, r) =>
        match exponent r with
        | Some e =>
            Some (of_decimal neg (Z_of_digits (ip ++ fp))
                             (e - Z.of_nat (List.length fp)))
        | None => None
        end
    | None => None
    end.

Definition float_of_string (s : string) : option float :=
  parse_float (list_ascii_of_string s).

(** *** [repr(s)] *)

Definition hex_digit (n : Z) : ascii :=
  ascii_of_nat (Z.to_nat (if n <? 10 then 48 + n else 87 + n)).

Definition escape (quote c : ascii) : list ascii :=
  if Ascii.eqb c quote || Ascii.eqb c "\" then ["\"%char; c]
  else if code c =? 9 then ["\"%char; "t"%char]
  else if code c =? 10 then ["\"%char; "n"%char]
  else if code c =? 13 then ["\"%char; "r"%char]
  else if (code c <? 32) || (code c =? 127) then
    ["\"%char; "x"%char; hex_digit (code c / 16); hex_digit (code c mod 16)]
  else [c].

Definition double_quote : ascii := ascii_of_nat 34.

Definition string_repr (s : string) : string :=
  let cs := list_ascii_of_string s in
  let quote : ascii :=
    if existsb (Ascii.eqb "'") cs && negb (existsb (Ascii.eqb double_quote) cs)
    then double_quote else "'"%char in
  string_of_list_ascii ((quote :: flat_map (escape quote) cs) ++ [quote]).


(** *** [repr(f)]: the shortest digits that read back as [f] *)

(** [10^t <= num / den], for positive [num] and [den]. *)
Definition pow10_le (t num den : Z) : bool :=
  if 0 <=? t then 10 ^ t * den <=? num else den <=? num * 10 ^ (- t).

Fixpoint raise_log10 (fuel : nat) (t num den : Z) : Z :=
  match fuel with
  | O => t
  | S fuel' =>
      if pow10_le (t + 1) num den then raise_log10 fuel' (t + 1) num den else t
  end.

(** The [t] with [10^t <= num / den < 10^(t+1)]. *)
Definition floor_log10 (num den : Z) : Z :=
  let l := Z.log2 num - Z.log2 den in
  raise_log10 8 (l * 30103 / 100000 - 2) num den.

(** [num / (den * 10^k)]: its floor, and whether the rest is below, at or
    above one half. *)
Definition scale_down (num den k : Z) : Z * comparison :=
  let n := if 0 <=? k then num else num * 10 ^ (- k) in
  let d := if 0 <=? k then den * 10 ^ k else den in
  (n / d, 2 * (n mod d) ?= d).

Definition float_eqb (f g : float) : bool :=
  match f, g with
  | S754_finite s m e, S754_finite s' m' e' =>
      Bool.eqb s s' && Pos.eqb m m' && Z.eqb e e'
  | _, _ => false
  end.

(** The candidate with [n] digits, if one reads back as [m * 2^e]:
    [(digits, k)] for the number [digits * 10^k]. *)
Definition candidate (m : positive) (e : Z) (num den t : Z) (n : nat)
  : option (Z * Z) :=
  let k := t - (Z.of_nat n - 1) in
  let '(lo, half) := scale_down num den k in
  let hi := lo + 1 in
  let back d := float_eqb (of_decimal false d k) (S754_finite false m e) in
  let nearest :=
    match half with
    | Lt => lo
    | Gt => hi
    | Eq => if Z.even lo then lo else hi
    end in
  match back lo, back hi with
  | true, true => Some (nearest, k)
  | true, false => Some (lo, k)
  | false, true => Some (hi, k)
  | false, false => if (n =? 17)%nat then Some (nearest, k) else None
  end.

Fixpoint shortest (m : positive) (e : Z) (num den t : Z) (fuel n : nat)
  : Z * Z :=
  match fuel with
  | O => (Zpos m, 0)
  | S fuel' =>
      match candidate m e num den t n with
      | Some r => r
      | None => shortest m e num den t fuel' (S n)
      end
  end.

Fixpoint drop_zeros (fuel : nat) (d k : Z) : Z * Z :=
  match fuel with
  | O => (d, k)
  | S fuel' => if d mod 10 =? 0 then drop_zeros fuel' (d / 10) (k + 1) else (d, k)
  end.

Definition two_digits (n : Z) : string :=
  if n <? 10 then "0" +:+ digits n else digits n.

(** The digits [ds] with the decimal point after the first [decpt] of them,
    laid out as [repr] does. *)
Definition layout (ds : string) (decpt : Z) : string :=
  let len := Z.of_nat (String.length ds) in
  if (-4 <? decpt) && (decpt <=? 16) then
    if decpt <=? 0 then "0." +:+ zeros (Z.to_nat (- decpt)) +:+ ds
    else if len <=? decpt then ds +:+ zeros (Z.to_nat (decpt - len)) +:+ ".0"
    else substring 0 (Z.to_nat decpt) ds +:+ "."
           +:+ substring (Z.to_nat decpt) (Z.to_nat (len - decpt)) ds
  else
    let x := decpt - 1 in
    substring 0 1 ds
      +:+ (if len =? 1 then "" else "." +:+ substring 1 (Z.to_nat (len - 1)) ds)
      +:+ "e" +:+ (if x <? 0 then "-" else "+") +:+ two_digits (Z.abs x).

Definition float_repr (f : float) : string :=
  match f with
  | S754_nan => "nan"
  | S754_infinity s => if s then "-inf" else "inf"
  | S754_zero s => if s then "-0.0" else "0.0"
  | S754_finite s m e =>
      let num := if 0 <=? e then Zpos m * 2 ^ e else Zpos m in
      let den := if 0 <=? e then 1 else 2 ^ (- e) in
      let '(d, k) := shortest m e num den (floor_log10 num den) 17 1 in
      let '(d, k) := drop_zeros 400 d k in
      let ds := digits d in
      (if s then "-" else "") +:+ layout ds (Z.of_nat (String.length ds) + k)
  end.

End AsciiText.

#[export] Instance ascii_builtins : Builtins := {
  str_to_float := AsciiText.float_of_string;
  repr_float := AsciiText.float_repr;
  repr_str := AsciiText.string_repr
}.

(** ** Statements with effects

    A statement runs from a state and ends normally, with an exception, or
    with [sys.exit]. *)

Inductive outcome (A : Type) :=
| Done (a : A)
| Raised (e : exn)
| SysExit (code : Z).

Arguments Done {A} a.
Arguments Raised {A} e.
Arguments SysExit {A} code.

Definition st (S A : Type) : Type := S -> outcome A * S.

Definition ret {S A} (a : A) : st S A := fun s => (Done a, s).

Definition bind {S A B} (m : st S A) (k : A -> st S B) : st S B :=
  fun s =>
    match m s with
    | (Done a, s') => k a s'
    | (Raised e, s') => (Raised e, s')
    | (SysExit c, s') => (SysExit c, s')
    end.

Notation "x <~ e ;; k" := (bind e (fun x => k))
  (at level 61, e at next level, right associativity) : py_scope.
Notation "e ;;; k" := (bind e (fun _ => k))
  (at level 61, right associativity) : py_scope.

(** An expression without effect, evaluated in a statement. *)
Definition eval {S A} (r : result A) : st S A :=
  fun s => (match r with Ok a => Done a | Raise e => Raised e end, s).

Definition sys_exit {S A} (code : Z) : st S A := fun s => (SysExit code, s).

(** [try: block except <caught>: handler] *)
Definition try_except {S A} (block : st S A) (caught : exn -> bool)
    (handler : st S A) : st S A :=
  fun s =>
    match block s with
    | (Raised e, s') => if caught e then handler s' else (Raised e, s')
    | r => r
    end.

Fixpoint for_each {S A} (l : list A) (body : A -> st S unit) : st S unit :=
  match l with
  | [] => ret tt
  | a :: l' => body a ;;; for_each l' body
  end.

(** The exit status of the process. *)
Definition exit_status {A} (o : outcome A) : Z :=
  match o with
  | Done _ => 0
  | Raised _ => 1
  | SysExit c => c
  end.

(** What a run can change outside its own variables: the text printed so
    far and the files written.  [costed] is a ghost log of the sales handed
    to the costing engine; the source keeps no such record. *)
Record world := {
  stdout : string;
  files : list (string * string);
  costed : list value
}.

(** [print]: the line and a line feed go to the console.  The console is
    taken to accept every text, and below the working directory to accept
    the report file: a console that cannot encode a line, or a file that
    cannot be opened for writing, would end the call with an exception and
    is not part of this world. *)
Definition print (line : string) : st world unit :=
  fun w => (Done tt, {| stdout := stdout w +:+ line +:+ String "010" "";
                        files := files w;
                        costed := costed w |}).

(** [open(name, 'w')] and one [write]: the file holds [text] alone. *)
Definition write_file (name text : string) : st world unit :=
  fun w => (Done tt, {| stdout := stdout w;
                        files := (name, text)
                                   :: filter (fun f => negb (String.eqb (fst f) name))
                                        (files w);
                        costed := costed w |}).

Definition read_file (name : string) (w : world) : option string :=
  match find (fun f => String.eqb (fst f) name) (files w) with
  | Some f => Some (snd f)
  | None => None
  end.

(** ** The engine, statement by statement

    The variables of one call of [compute_sale_cost]: the two objects the
    parameters are bound to, the two locals, and the world around. *)

Record frame := {
  sale : value;
  price_catalogue : value;
  total_cost : number;
  errors : list string;
  env : world
}.

Module Stateful.

Section Engine.

Context `{Builtins}.

Definition enter (sale price_catalogue : value) (w : world) : frame :=
  {| sale := sale; price_catalogue := price_catalogue;
     total_cost := NInt 0; errors := []; env := w |}.

Definition read {A} (var : frame -> A) : st frame A :=
  fun fr => (Done (var fr), fr).

Definition set_total_cost (n : number) : st frame unit :=
  fun fr => (Done tt, {| sale := sale fr; price_catalogue := price_catalogue fr;
                         total_cost := n; errors := errors fr; env := env fr |}).

(** [errors.append(message)] *)
Definition errors_append (message : string) : st frame unit :=
  fun fr => (Done tt, {| sale := sale fr; price_catalogue := price_catalogue fr;
                         total_cost := total_cost fr;
                         errors := errors fr ++ [message]; env := env fr |}).

Definition caught (e : exn) : bool :=
  match e with
  | ValueError | TypeError => true
  | _ => false
  end.

Definition loop_body (item : value) : st frame unit :=
  product_name <~ eval (py_get item "product" VNone) ;;
  quantity <~ eval (py_get item "quantity" (VInt 0)) ;;
  if negb (truthy product_name) || negb (truthy quantity) then
    this_sale <~ read sale ;;
    sale_id <~ eval (py_get this_sale "id" (VStr "Unknown")) ;;
    errors_append (invalid_item_message sale_id)
  else
    catalogue <~ read price_catalogue ;;
    present <~ eval (py_contains catalogue product_name) ;;
    if negb present then
      errors_append (not_found_message product_name)
    else
      try_except
        (catalogue <~ read price_catalogue ;;
         entry <~ eval (py_getitem catalogue product_name) ;;
         price <~ eval (py_float entry) ;;
         amount <~ eval (float_mul price quantity) ;;
         so_far <~ read total_cost ;;
         total <~ eval (num_add so_far (NFloat amount)) ;;
         set_total_cost total)
        caught
        (errors_append (invalid_price_message product_name)).

(** The body of the function, from the frame [enter] builds. *)
Definition compute_sale_cost : st frame (number * list string) :=
  this_sale <~ read sale ;;
  field <~ eval (py_get this_sale "items" (VList [])) ;;
  items <~ eval (py_iter field) ;;
  for_each items loop_body ;;;
  total <~ read total_cost ;;
  messages <~ read errors ;;
  ret (total, messages).

End Engine.

End Stateful.

(** ** The program: [load_json_file], [write_results], [main] *)

(** What [open] and [json.load] make of a path: a document, the two
    failures [load_json_file] catches ([FileNotFoundError] and
    [json.JSONDecodeError], with its description), or any other exception,
    which it lets through: an [OSError] for a directory or a file without
    permission, a [ValueError] for bytes that are no UTF-8, a
    [RecursionError] for a document nested too deep. *)
Inductive file :=
| Missing
| Malformed (description : string)
| Unloadable (e : exn)
| Document (content : value).

Section Program.

Context `{Builtins}.

Variable disk : string -> file.

Definition load_json_file (filename : string) : st world value :=
  match disk filename with
  | Document content => ret content
  | Missing =>
      print ("Error: File '" +:+ filename +:+ "' not found") ;;;
      sys_exit 1
  | Malformed description =>
      print ("Error: Invalid JSON in file '" +:+ filename +:+ "': "
               +:+ description) ;;;
      sys_exit 1
  | Unloadable e => eval (Raise e)
  end.

Definition write_results (total_cost : number) (execution_time : float)
    (errors : list string) : st world unit :=
  results <~ eval (report_lines total_cost execution_time errors) ;;
  print (String.concat (String "010" "") results) ;;;
  write_file "SalesResults.txt" (String.concat (String "010" "") results).

(** One call of the engine from [main]: the sale is logged, the engine
    runs in its own frame, and [main] goes on with the world and the
    catalogue object as the call left them. *)
Definition call_compute_sale_cost (this_sale catalogue : value)
  : st world (number * list string * value) :=
  fun w =>
    let w := {| stdout := stdout w; files := files w;
                costed := costed w ++ [this_sale] |} in
    let '(o, fr) := Stateful.compute_sale_cost
                      (Stateful.enter this_sale catalogue w) in
    (match o with
     | Done r => Done (r, price_catalogue fr)
     | Raised e => Raised e
     | SysExit c => SysExit c
     end, env fr).

(** The loop of [main] over the sales. *)
Fixpoint main_loop (price_catalogue : value) (sales_record : list value)
    (total_cost : number) (all_errors : list string)
  : st world (number * list string) :=
  match sales_record with
  | [] => ret (total_cost, all_errors)
  | sale :: rest =>
      r <~ call_compute_sale_cost sale price_catalogue ;;
      let '(sale_cost, errors, price_catalogue) := r in
      total_cost <~ eval (num_add total_cost sale_cost) ;;
      main_loop price_catalogue rest total_cost (all_errors ++ errors)
  end.

Definition usage : string :=
  "Usage: python computeSales.py " +:+ "priceCatalogue.json salesRecord.json".

(** [main], with [sys.argv] and the two readings of [time.time()]. *)
Definition main (argv : list string) (clock : float * float) : st world unit :=
  match argv with
  | [_; catalogue_path; sales_path] =>
      let start_time := fst clock in
      price_catalogue <~ load_json_file catalogue_path ;;
      sales_record <~ load_json_file sales_path ;;
      match sales_record with
      | VList sales =>
          r <~ main_loop price_catalogue sales (NInt 0) [] ;;
          let '(total_cost, all_errors) := r in
          let execution_time := fsub (snd clock) start_time in
          write_results total_cost execution_time all_errors
      | _ =>
          print "Error: Sales record must be a list of sales" ;;;
          sys_exit 1
      end
  | _ => print usage ;;; sys_exit 1
  end.

End Program.

(** ** The words of the specification *)

Definition to_outcome {A} (r : result A) : outcome A :=
  match r with
  | Ok a => Done a
  | Raise e => Raised e
  end.

(** A JSON number. *)
Definition numeric (v : value) : bool :=
  match v with
  | VInt _ | VFloat _ => true
  | _ => false
  end.

(** An integer is in range when it rounds to a finite float; anything else
    is. *)
Definition in_range (v : value) : bool :=
  match v with
  | VInt z => negb (is_inf (of_Z z))
  | _ => true
  end.

(** A list or a mapping cannot be hashed. *)
Definition hashable (v : value) : bool :=
  match v with
  | VList _ | VDict _ => false
  | _ => true
  end.

(** The field [k] of a line item or of a sale. *)
Definition field (o : value) (k : string) (default : value) : value :=
  match o with
  | VDict d => dict_get d k default
  | _ => default
  end.

(** The line items of a sale. *)
Definition items_of (sale : value) : list value :=
  match field sale "items" (VList []) with
  | VList items => items
  | _ => []
  end.

(** The sum of a sequence of numbers, from the integer 0, in the arithmetic
    of the language. *)
Definition num_plus (a b : number) : number :=
  match a, b with
  | NInt x, NInt y => NInt (x + y)
  | NInt x, NFloat g => NFloat (fadd (of_Z x) g)
  | NFloat f, NInt y => NFloat (fadd f (of_Z y))
  | NFloat f, NFloat g => NFloat (fadd f g)
  end.

Definition sum_of (l : list number) : number := fold_left num_plus l (NInt 0).

Section Specification.

Context `{Builtins}.

(** [price(product)]: the catalogue's entry as a float. *)
Definition price (catalogue : dict) (product : value) : float :=
  match product with
  | VStr name =>
      match lookup name catalogue with
      | Some entry => match py_float entry with Ok p => p | Raise _ => nan end
      | None => nan
      end
  | _ => nan
  end.

Definition quantity_value (quantity : value) : float :=
  match quantity with
  | VInt z => of_Z z
  | VFloat q => q
  | _ => nan
  end.

(** [price(product) × quantity] for one line item. *)
Definition line_amount (catalogue : dict) (item : value) : float :=
  fmul (price catalogue (field item "product" VNone))
       (quantity_value (field item "quantity" (VInt 0))).

(** Σ over the items of a sale. *)
Definition sale_total (catalogue : dict) (sale : value) : number :=
  sum_of (map (fun item => NFloat (line_amount catalogue item)) (items_of sale)).

(** Σ over sales, items of [price(product) × quantity]. *)
Definition grand_total (catalogue : dict) (sales_record : list value) : number :=
  sum_of (map (sale_total catalogue) sales_record).

(** A line item that is not invalid: a non-empty product present in the
    catalogue, a truthy numeric quantity, a price coercible to float. *)
Definition valid_item (catalogue : dict) (item : value) : bool :=
  match item with
  | VDict d =>
      match lookup "product" d, lookup "quantity" d with
      | Some (VStr name), Some quantity =>
          negb (String.eqb name "") && numeric quantity && truthy quantity
          && match lookup name catalogue with
             | Some entry => is_ok (py_float entry)
             | None => false
             end
      | _, _ => false
      end
  | _ => false
  end.

Definition valid_sale (catalogue : dict) (sale : value) : bool :=
  match sale with
  | VDict d =>
      match dict_get d "items" (VList []) with
      | VList items => forallb (valid_item catalogue) items
      | _ => false
      end
  | _ => false
  end.

Definition quantity_in_range (item : value) : bool :=
  in_range (field item "quantity" (VInt 0)).

(** A line item the engine can take: a mapping whose product can be
    hashed, with no integer out of the floats' range as its quantity or
    as its price. *)
Definition regular_item (catalogue : dict) (item : value) : bool :=
  match item with
  | VDict d =>
      let product := dict_get d "product" VNone in
      hashable product
      && in_range (dict_get d "quantity" (VInt 0))
      && match product with
         | VStr name => in_range (dict_get catalogue name VNone)
         | _ => true
         end
  | _ => false
  end.

Definition regular_sale (catalogue : dict) (sale : value) : bool :=
  match sale with
  | VDict d =>
      match dict_get d "items" (VList []) with
      | VList items => forallb (regular_item catalogue) items
      | _ => false
      end
  | _ => false
  end.

(** The messages one line item yields on its own. *)
Definition item_errors (sale price_catalogue item : value) : list string :=
  match item_step sale price_catalogue (NInt 0, []) item with
  | Ok (_, messages) => messages
  | Raise _ => []
  end.

Definition sale_errors (price_catalogue sale : value) : list string :=
  flat_map (item_errors sale price_catalogue)
           (match py_get sale "items" (VList []) with
            | Ok items => match py_iter items with Ok l => l | Raise _ => [] end
            | Raise _ => []
            end).

End Specification.

(** A total that [num_add] takes without converting a large integer. *)
Definition plain_total (n : number) : Prop :=
  match n with
  | NInt z => z = 0
  | NFloat _ => True
  end.

(** The frame [fr'] differs from [fr] in the two locals at most. *)
Definition same_outside (fr fr' : frame) : Prop :=
  sale fr' = sale fr /\ price_catalogue fr' = price_catalogue fr /\ env fr' = env fr.

(** The frame [fr] with its two locals set. *)
Definition with_locals (fr : frame) (total : number) (messages : list string) : frame :=
  {| sale := sale fr; price_catalogue := price_catalogue fr;
     total_cost := total; errors := messages; env := env fr |}.

(** The world [w] after the engine was called on [sales]. *)
Definition logged (w : world) (sales : list value) : world :=
  {| stdout := stdout w; files := files w; costed := costed w ++ sales |}.

Definition newline : string := String "010" "".

(** ** Sample documents *)

(** Scenario A of the specification. *)
Definition scenario_catalogue : dict :=
  [("Apple", VStr "1.50"); ("Bread", VInt 3)].

Definition scenario_sales : list value :=
  [VDict [("id", VStr "S1");
          ("items", VList [VDict [("product", VStr "Apple"); ("quantity", VInt 4)];
                           VDict [("product", VStr "Bread"); ("quantity", VInt 1)]])]].

(** An order of [2^1024] apples: a JSON integer of 309 digits. *)
Definition large_order : list value :=
  [VDict [("id", VStr "S1");
          ("items", VList [VDict [("product", VStr "Apple");
                                  ("quantity", VInt (2 ^ 1024))]])]].

(** A refund entered as a negative price, and returns entered as negative
    quantities. *)
Definition refund_catalogue : dict :=
  [("Apple", VStr "1.50"); ("Refund", VStr "-2")].

Definition returned_apples : dict :=
  [("product", VStr "Apple"); ("quantity", VInt (-2))].

Definition returned_refunds : dict :=
  [("product", VStr "Refund"); ("quantity", VInt (-3))].

Definition large_return : dict :=
  [("product", VStr "Apple"); ("quantity", VInt (- 2 ^ 1024))].

(** A quantity that is text. *)
Definition worded_quantity : dict :=
  [("product", VStr "Apple"); ("quantity", VStr "abc")].

(** Sales the engine cannot take: an item that is no mapping, an items
    field that is no sequence, a product that is a list. *)
Definition bare_item_sale : value :=
  VDict [("id", VStr "S2"); ("items", VList [VInt 5])].

Definition scalar_items_sale : value :=
  VDict [("id", VStr "S3"); ("items", VInt 5)].

Definition listed_product_sale : value :=
  VDict [("id", VStr "S4");
         ("items", VList [VDict [("product", VList [VStr "Apple"]);
                                 ("quantity", VInt 1)]])].

(** A sale with one item of each kind, twice the same unknown product. *)
Definition mixed_sale : value :=
  VDict [("id", VStr "S5");
         ("items", VList [VDict [("product", VStr "Milk"); ("quantity", VInt 2)];
                          VDict [("product", VStr "Apple"); ("quantity", VInt 4)];
                          VDict [("product", VStr "Bread")];
                          VDict [("product", VStr "Milk"); ("quantity", VInt 2)]])].

(** The two documents of a run, by path. *)
Definition scenario_disk (path : string) : file :=
  if String.eqb path "priceCatalogue.json" then Document (VDict scenario_catalogue)
  else if String.eqb path "salesRecord.json" then Document (VList scenario_sales)
  else Missing.

Definition fresh_world : world := {| stdout := ""; files := []; costed := [] |}.

(** A catalogue with a price that is no number and a price of 309 digits. *)
Definition unpriced_catalogue : dict :=
  [("Apple", VStr "1.50"); ("Bad", VStr "n/a"); ("Huge", VInt (2 ^ 1024))].

Definition bad_item : dict := [("product", VStr "Bad"); ("quantity", VInt 2)].

Definition huge_item : dict := [("product", VStr "Huge"); ("quantity", VInt 1)].

(** A number below zero. *)
Definition negative_number (v : value) : bool :=
  match v with
  | VInt z => z <? 0
  | VFloat f => is_negative f
  | _ => false
  end.

(** ** Further notions: the loop's invariant, the exceptions, the run *)

(** The items the loop of the engine runs over. *)
Definition iterated_items (sale : value) : result (list value) :=
  field <- py_get sale "items" (VList []) ;; py_iter field.

(** The three shapes of an advisory message. *)
Definition advisory_form (message : string) : bool :=
  String.prefix "Invalid item in sale " message
  || String.prefix "Product '" message
  || String.prefix "Invalid price for product '" message.

(** A truthy quantity that is no number: text, a list or a mapping. *)
Definition worded (quantity : value) : bool :=
  match quantity with
  | VStr _ | VList _ | VDict _ => truthy quantity
  | _ => false
  end.

Definition is_float (n : number) : bool :=
  match n with NFloat _ => true | NInt _ => false end.

(** The invariant of the loop over [k] processed items: no more messages
    than items, and a total that is still the integer 0 exactly when every
    item so far left a message. *)
Definition loop_invariant (k : nat) (acc : number * list string) : Prop :=
  (List.length (snd acc) <= k)%nat
  /\ plain_total (fst acc)
  /\ (fst acc = NInt 0 <-> List.length (snd acc) = k)
  /\ Forall (fun message => advisory_form message = true) (snd acc).

(** *** The exceptions that leave the engine *)

(** What can leave the engine against a catalogue that is a mapping. *)
Definition escapes (e : exn) : bool :=
  match e with
  | AttributeError | TypeError | OverflowError => true
  | ValueError | KeyError | IndexError | OSError | RecursionError => false
  end.

(** A float that is a number: neither an infinity nor a NaN. *)
Definition is_real (f : float) : bool :=
  match f with
  | S754_zero _ | S754_finite _ _ _ => true
  | _ => false
  end.

(** The world after one [print]. *)
Definition printed (w : world) (line : string) : world :=
  {| stdout := stdout w +:+ line +:+ newline; files := files w; costed := costed w |}.

(** The world after the report [text] was printed and written. *)
Definition reported (w : world) (text : string) : world :=
  {| stdout := stdout w +:+ text +:+ newline;
     files := ("SalesResults.txt", text)
                :: filter (fun f => negb (String.eqb (fst f) "SalesResults.txt"))
                     (files w);
     costed := costed w |}.


Section Report.

Context `{Builtins}.

(** The text of the report. *)
Definition report_text (total : number) (execution_time : float)
    (messages : list string) : result string :=
  lines <- report_lines total execution_time messages ;;
  Ok (String.concat newline lines).

End Report.

(** A disk whose sales record is the large order, and one without sales
    record. *)
Definition large_order_disk (path : string) : file :=
  if String.eqb path "priceCatalogue.json" then Document (VDict scenario_catalogue)
  else if String.eqb path "salesRecord.json" then Document (VList large_order)
  else Missing.

(** A world in which an earlier run left its report beside another file. *)
Definition used_world : world :=
  {| stdout := "";
     files := [("notes.txt", "keep"); ("SalesResults.txt", "old")];
     costed := [] |}.

(** A sale with an id that is null, and an item whose quantity is true. *)
Definition anonymous_sale : dict := [("id", VNone); ("items", VList [])].

Definition one_apple : dict := [("product", VStr "Apple"); ("quantity", VBool true)].


(** An item whose product is a list of names. *)
Definition listed_item : dict :=
  [("product", VList [VStr "Milk"]); ("quantity", VInt 1)].

(** A sale whose items are keyed by name, and one priced with a NaN. *)
Definition keyed_sale : dict :=
  [("id", VStr "S6"); ("items", VDict [("Apple", VInt 4)])].

Definition nan_catalogue : dict := [("Apple", VFloat nan); ("Bread", VInt 3)].

(** * Facts on the floating-point operations *)

Lemma shr_1_m (r : shr_record) : 0 <= shr_m r -> shr_m (shr_1 r) = shr_m r / 2.
Proof.
  destruct r as [m b s]. simpl. intros Hm. rewrite <- Z.div2_div.
  destruct m as [| p | p]; [reflexivity | destruct p; reflexivity | lia].
Qed.

Lemma iter_shr_1_m (n : positive) :
  forall r, 0 <= shr_m r ->
  shr_m (iter_pos shr_1 n r) = shr_m r / 2 ^ Zpos n.
Proof.
  induction n as [n IH | n IH |]; intros r Hr; simpl iter_pos.
  - assert (H1 : 0 <= shr_m (shr_1 r)).
    { rewrite shr_1_m by exact Hr. apply Z.div_pos; lia. }
    assert (H2 : 0 <= shr_m (iter_pos shr_1 n (shr_1 r))).
    { rewrite IH by exact H1. apply Z.div_pos; [exact H1 | apply Z.pow_pos_nonneg; lia]. }
    rewrite (IH _ H2), (IH _ H1), (shr_1_m _ Hr).
    rewrite !Z.div_div by (try apply Z.pow_pos_nonneg; lia).
    f_equal. rewrite (Pos2Z.inj_xI n).
    replace (2 * Zpos n + 1) with (1 + Zpos n + Zpos n) by lia.
    rewrite !Z.pow_add_r by lia. change (2 ^ 1) with 2. ring.
  - assert (H2 : 0 <= shr_m (iter_pos shr_1 n r)).
    { rewrite IH by exact Hr. apply Z.div_pos; [exact Hr | apply Z.pow_pos_nonneg; lia]. }
    rewrite (IH _ H2), (IH _ Hr).
    rewrite !Z.div_div by (try apply Z.pow_pos_nonneg; lia).
    f_equal. rewrite (Pos2Z.inj_xO n).
    replace (2 * Zpos n) with (Zpos n + Zpos n) by lia.
    rewrite !Z.pow_add_r by lia. ring.
  - rewrite shr_1_m by exact Hr. reflexivity.
Qed.

Lemma digits2_log2 (p : positive) : Zpos (digits2_pos p) = Z.log2 (Zpos p) + 1.
Proof.
  induction p as [p IH | p IH |].
  - simpl digits2_pos. rewrite Pos2Z.inj_succ, IH.
    change (Zpos p~1) with (2 * Zpos p + 1). rewrite Z.log2_succ_double by lia. lia.
  - simpl digits2_pos. rewrite Pos2Z.inj_succ, IH.
    change (Zpos p~0) with (2 * Zpos p). rewrite Z.log2_double by lia. lia.
  - reflexivity.
Qed.

Lemma Zdigits2_log2 (m : Z) : 0 < m -> Zdigits2 m = Z.log2 m + 1.
Proof.
  destruct m as [| p | p]; intros Hm; try lia. apply digits2_log2.
Qed.

Lemma shr_record_of_loc_m m l : shr_m (shr_record_of_loc m l) = m.
Proof. destruct l as [| []]; reflexivity. Qed.


Lemma shr_fexp_nonneg m e l :
  0 <= m -> 0 <= shr_m (fst (shr_fexp prec emax m e l)).
Proof.
  intros Hm. unfold shr_fexp, shr.
  destruct (fexp prec emax (Zdigits2 m + e) - e) as [| n | n]; simpl;
    rewrite ?iter_shr_1_m, shr_record_of_loc_m; rewrite ?shr_record_of_loc_m; try exact Hm.
  apply Z.div_pos; [exact Hm | apply Z.pow_pos_nonneg; lia].
Qed.

Lemma shr_fexp_pos m e l :
  0 < m -> emin prec emax < Zdigits2 m + e ->
  0 < shr_m (fst (shr_fexp prec emax m e l))
  /\ Zdigits2 (shr_m (fst (shr_fexp prec emax m e l))) + snd (shr_fexp prec emax m e l)
     = Zdigits2 m + e.
Proof.
  intros Hm He. unfold shr_fexp, shr.
  pose proof (Zdigits2_log2 m Hm) as Hd.
  assert (Hn : fexp prec emax (Zdigits2 m + e) - e < Zdigits2 m).
  { unfold fexp, emin, prec, emax in *. lia. }
  destruct (fexp prec emax (Zdigits2 m + e) - e) as [| n | n] eqn:En; simpl;
    rewrite ?iter_shr_1_m, shr_record_of_loc_m; rewrite ?shr_record_of_loc_m; try lia.
  rewrite <- Z.shiftr_div_pow2 by lia.
  assert (Hlog : Z.log2 (Z.shiftr m (Zpos n)) = Z.log2 m - Zpos n).
  { rewrite Z.log2_shiftr by lia. pose proof (Z.log2_nonneg m). lia. }
  assert (Hpos : 0 < Z.shiftr m (Zpos n)).
  { rewrite Z.shiftr_div_pow2 by lia. apply Z.div_str_pos. split; [apply Z.pow_pos_nonneg; lia |].
    apply Z.log2_le_pow2; lia. }
  split; [exact Hpos |]. rewrite (Zdigits2_log2 _ Hpos). lia.
Qed.

Lemma round_nearest_even_bounds m l :
  m <= round_nearest_even m l <= m + 1.
Proof.
  unfold round_nearest_even. destruct l as [| []]; try lia.
  destruct (Z.even m); lia.
Qed.

Lemma Zdigits2_mono a b : 0 < a -> a <= b -> Zdigits2 a <= Zdigits2 b.
Proof.
  intros Ha Hab. rewrite !Zdigits2_log2 by lia.
  pose proof (Z.log2_le_mono a b Hab). lia.
Qed.

(** The rounding of a non-negative mantissa keeps the sign it is given. *)
Lemma binary_round_aux_sign s m e l :
  0 <= m ->
  binary_round_aux prec emax s m e l <> S754_nan
  /\ sign_bit (binary_round_aux prec emax s m e l) = s.
Proof.
  intros Hm. unfold binary_round_aux.
  pose proof (shr_fexp_nonneg m e l Hm) as H1.
  destruct (shr_fexp prec emax m e l) as [r1 e1]. simpl in H1.
  pose proof (round_nearest_even_bounds (shr_m r1) (loc_of_shr_record r1)) as Hr.
  pose proof (shr_fexp_nonneg (round_nearest_even (shr_m r1) (loc_of_shr_record r1))
                e1 loc_Exact ltac:(lia)) as H2.
  destruct (shr_fexp prec emax _ e1 loc_Exact) as [r2 e2]. simpl in H2.
  destruct (shr_m r2) as [| p | p]; [| | lia].
  - split; [discriminate | reflexivity].
  - destruct (e2 <=? emax - prec); split; (discriminate || reflexivity).
Qed.

(** Above the smallest exponent the rounding of a positive mantissa is not
    a zero. *)
Lemma binary_round_aux_nonzero s m e l :
  0 < m -> emin prec emax < Zdigits2 m + e ->
  is_zero (binary_round_aux prec emax s m e l) = false.
Proof.
  intros Hm He. unfold binary_round_aux.
  destruct (shr_fexp_pos m e l Hm He) as [H1 E1].
  destruct (shr_fexp prec emax m e l) as [r1 e1]. simpl in H1, E1.
  pose proof (round_nearest_even_bounds (shr_m r1) (loc_of_shr_record r1)) as Hr.
  set (m2 := round_nearest_even (shr_m r1) (loc_of_shr_record r1)) in *.
  assert (Hm2 : 0 < m2) by lia.
  assert (He2 : emin prec emax < Zdigits2 m2 + e1).
  { pose proof (Zdigits2_mono (shr_m r1) m2 H1 ltac:(lia)). lia. }
  destruct (shr_fexp_pos m2 e1 loc_Exact Hm2 He2) as [H2 _].
  destruct (shr_fexp prec emax m2 e1 loc_Exact) as [r2 e2]. simpl in H2.
  destruct (shr_m r2) as [| p | p]; [lia | | lia].
  destruct (e2 <=? emax - prec); reflexivity.
Qed.

Lemma digits2_iter_xO (p d : positive) :
  Zpos (digits2_pos (Pos.iter xO p d)) = Zpos (digits2_pos p) + Zpos d.
Proof.
  induction d as [| d IH] using Pos.peano_ind.
  - simpl. lia.
  - rewrite Pos.iter_succ. simpl digits2_pos. rewrite Pos2Z.inj_succ, IH. lia.
Qed.

Lemma of_Z_negative (z : Z) : z < 0 -> is_negative (of_Z z) = true.
Proof.
  destruct z as [| p | p]; intros Hz; try lia.
  unfold of_Z, binary_normalize, binary_round.
  assert (Hshape : forall mz ez,
             Zpos (digits2_pos mz) + ez = Zpos (digits2_pos p) ->
             is_negative (binary_round_aux prec emax true (Zpos mz) ez loc_Exact) = true).
  { intros mz ez E.
    pose proof (binary_round_aux_sign true (Zpos mz) ez loc_Exact ltac:(lia)) as [Hn Hs].
    pose proof (binary_round_aux_nonzero true (Zpos mz) ez loc_Exact ltac:(lia)) as Hz'.
    simpl Zdigits2 in Hz'. specialize (Hz' ltac:(unfold emin, prec, emax; lia)).
    destruct (binary_round_aux prec emax true (Zpos mz) ez loc_Exact);
      simpl in Hs, Hz' |- *; subst; congruence. }
  unfold shl_align.
  destruct (fexp prec emax (Zpos (digits2_pos p) + 0) - 0) as [| d | d] eqn:Ed.
  - apply Hshape. lia.
  - apply Hshape. lia.
  - apply Hshape. rewrite digits2_iter_xO. lia.
Qed.

Lemma fmul_sign (p q : float) :
  is_positive p = true -> is_negative q = true -> sign_bit (fmul p q) = true.
Proof.
  destruct p as [| [] | | [] mp ep]; try discriminate;
    destruct q as [| [] | | [] mq eq]; try discriminate; intros _ _; try reflexivity.
  unfold fmul, SFmul.
  apply (binary_round_aux_sign (xorb false true)). lia.
Qed.

(** ** Fixed-point formatting *)

Lemma substring_length (s : string) :
  forall n m : nat, (n + m <= String.length s)%nat ->
  String.length (substring n m s) = m.
Proof.
  induction s as [| c s IH]; intros n m Hle; simpl in Hle.
  - assert (n = O /\ m = O) as [-> ->] by lia. reflexivity.
  - destruct n as [| n]; destruct m as [| m]; simpl.
    + reflexivity.
    + rewrite IH by lia. reflexivity.
    + apply IH. lia.
    + apply IH. lia.
Qed.

Lemma append_length (s t : string) :
  String.length (s +:+ t) = (String.length s + String.length t)%nat.
Proof. induction s as [| c s IH]; simpl; [reflexivity | rewrite IH; reflexivity]. Qed.

Lemma zeros_length (n : nat) : String.length (zeros n) = n.
Proof. induction n as [| n IH]; simpl; [reflexivity | rewrite IH; reflexivity]. Qed.

(** A finite number formatted with [d + 1] places has that many characters
    after its point. *)
Lemma with_point_places (d : nat) (n : Z) :
  exists whole places,
    with_point (S d) n = whole +:+ "." +:+ places
    /\ String.length places = S d.
Proof.
  unfold with_point.
  set (s := zeros (S (S d) - String.length (digits n)) +:+ digits n).
  exists (substring 0 (String.length s - S d) s),
         (substring (String.length s - S d) (S d) s).
  split; [reflexivity |]. apply substring_length.
  unfold s. rewrite append_length, zeros_length. lia.
Qed.

Lemma format_fixed_places (d : nat) (s : bool) (m : positive) (e : Z) :
  exists whole places,
    format_fixed (S d) (S754_finite s m e)
    = (if s then "-" else "") +:+ whole +:+ "." +:+ places
    /\ String.length places = S d.
Proof.
  destruct (with_point_places d (scaled (S d) m e)) as [whole [places [E Hlen]]].
  exists whole, places. split; [| exact Hlen].
  unfold format_fixed. rewrite E. reflexivity.
Qed.

(** * Properties of the costing engine *)

Section EngineFacts.

Context `{Builtins}.

Lemma rbind_ok {A B} (r : result A) (k : A -> result B) (b : B) :
  rbind r k = Ok b -> exists a, r = Ok a /\ k a = Ok b.
Proof.
  destruct r as [a | e]; simpl; intros E.
  - exists a. split; [reflexivity | exact E].
  - discriminate E.
Qed.

Lemma item_loop_app (sale catalogue : value) (l1 l2 : list value)
    (acc : number * list string) :
  item_loop sale catalogue (l1 ++ l2) acc =
  rbind (item_loop sale catalogue l1 acc) (item_loop sale catalogue l2).
Proof.
  revert acc. induction l1 as [| item l1 IH]; intros acc; simpl.
  - reflexivity.
  - destruct (item_step sale catalogue acc item) as [acc' | e]; simpl.
    + apply IH.
    + reflexivity.
Qed.

(** The first test of the loop body, on a mapping. *)
Lemma item_step_invalid (sd d : dict) (catalogue : value) (total : number)
    (errors : list string) :
  truthy (dict_get d "product" VNone) = false
  \/ truthy (dict_get d "quantity" (VInt 0)) = false ->
  item_step (VDict sd) catalogue (total, errors) (VDict d) =
  Ok (total, errors ++ [invalid_item_message (dict_get sd "id" (VStr "Unknown"))]).
Proof.
  intros Hfalsy. unfold item_step. simpl.
  replace (negb (truthy (dict_get d "product" VNone))
           || negb (truthy (dict_get d "quantity" (VInt 0)))) with true.
  - reflexivity.
  - destruct Hfalsy as [E | E]; rewrite E; simpl.
    + reflexivity.
    + symmetry. apply orb_true_r.
Qed.


(** The loop body on a mapping whose product and quantity are truthy. *)
Lemma item_step_truthy (sale catalogue : value) (d : dict) (total : number)
    (errors : list string) :
  truthy (dict_get d "product" VNone) = true ->
  truthy (dict_get d "quantity" (VInt 0)) = true ->
  item_step sale catalogue (total, errors) (VDict d) =
  rbind (py_contains catalogue (dict_get d "product" VNone))
    (fun present =>
       if negb present then
         Ok (total, errors ++ [not_found_message (dict_get d "product" VNone)])
       else
         match add_item_cost catalogue total (dict_get d "product" VNone)
                 (dict_get d "quantity" (VInt 0)) with
         | Ok total' => Ok (total', errors)
         | Raise ValueError | Raise TypeError =>
             Ok (total, errors ++ [invalid_price_message (dict_get d "product" VNone)])
         | Raise e => Raise e
         end).
Proof.
  intros Hp Hq. unfold item_step. simpl. rewrite Hp, Hq. reflexivity.
Qed.

Lemma truthy_str (name : string) : name <> "" -> truthy (VStr name) = true.
Proof.
  intros Hne. simpl. destruct (String.eqb_spec name ""); [contradiction | reflexivity].
Qed.

(** C5: a line item with a non-empty product and a truthy quantity whose
    product is not a key of the price catalogue records exactly one error
    "Product '<product>' not found in price catalogue" and leaves the total
    as it was. *)
Theorem unknown_product_is_reported (sale : value) (catalogue d : dict)
    (total : number) (errors : list string) :
  let product := dict_get d "product" VNone in
  truthy product = true ->
  hashable product = true ->
  truthy (dict_get d "quantity" (VInt 0)) = true ->
  (forall name, product = VStr name -> lookup name catalogue = None) ->
  item_step sale (VDict catalogue) (total, errors) (VDict d)
    = Ok (total,
          errors ++ ["Product '" +:+ py_str product
                       +:+ "' not found in price catalogue"]).
Proof.
  intros product Hp Hh Hq Hkey.
  rewrite (item_step_truthy sale (VDict catalogue) d total errors Hp Hq).
  fold product.
  assert (E : py_contains (VDict catalogue) product = Ok false).
  { destruct product; simpl in *; try reflexivity; try discriminate.
    rewrite (Hkey s eq_refl). reflexivity. }
  rewrite E. reflexivity.
Qed.

(** *** The total of valid items *)

Lemma float_of_int_in_range (z : Z) :
  in_range (VInt z) = true -> float_of_int z = Ok (of_Z z).
Proof.
  unfold in_range, float_of_int. intros E.
  destruct (is_inf (of_Z z)); [discriminate E | reflexivity].
Qed.

Lemma num_add_plain (a b : number) :
  plain_total a -> plain_total b ->
  num_add a b = Ok (num_plus a b) /\ plain_total (num_plus a b).
Proof.
  destruct a as [x | f], b as [y | g]; simpl; intros Ha Hb; subst;
    (split; [reflexivity | exact I || reflexivity]).
Qed.

Lemma float_mul_in_range (p : float) (quantity : value) :
  numeric quantity = true -> in_range quantity = true ->
  float_mul p quantity = Ok (fmul p (quantity_value quantity)).
Proof.
  destruct quantity; simpl; intros Hn Hr; try discriminate Hn.
  - rewrite (float_of_int_in_range z Hr). reflexivity.
  - reflexivity.
Qed.

Lemma valid_item_step (sale : value) (catalogue : dict) (item : value)
    (total : number) (errors : list string) :
  valid_item catalogue item = true ->
  quantity_in_range item = true ->
  plain_total total ->
  item_step sale (VDict catalogue) (total, errors) item
  = Ok (num_plus total (NFloat (line_amount catalogue item)), errors).
Proof.
  intros Hvalid Hrange Hplain.
  destruct item as [| | | | | | d]; try discriminate Hvalid.
  unfold valid_item in Hvalid. unfold quantity_in_range, field, dict_get in Hrange.
  unfold line_amount, field, dict_get.
  destruct (lookup "product" d) as [pv |] eqn:Ep;
    destruct (lookup "quantity" d) as [q |] eqn:Eq;
    try discriminate Hvalid;
    destruct pv as [| | | | name | |]; try discriminate Hvalid.
  apply andb_true_iff in Hvalid as [Hvalid Hentry].
  apply andb_true_iff in Hvalid as [Hvalid Htruthy].
  apply andb_true_iff in Hvalid as [Hname Hnum].
  destruct (lookup name catalogue) as [entry |] eqn:Ec; try discriminate Hentry.
  destruct (py_float entry) as [p |] eqn:Efloat; try discriminate Hentry.
  rewrite item_step_truthy.
  - unfold dict_get. rewrite Ep, Eq. simpl. rewrite Ec. simpl.
    unfold add_item_cost. simpl. rewrite Ec. simpl. rewrite Efloat. simpl.
    rewrite (float_mul_in_range p q Hnum Hrange). simpl.
    destruct (num_add_plain total (NFloat (fmul p (quantity_value q))) Hplain I)
      as [E _].
    rewrite E. reflexivity.
  - unfold dict_get. rewrite Ep. exact Hname.
  - unfold dict_get. rewrite Eq. exact Htruthy.
Qed.

Lemma valid_item_loop (sale : value) (catalogue : dict) (items : list value) :
  forall (total : number) (errors : list string),
  forallb (valid_item catalogue) items = true ->
  forallb quantity_in_range items = true ->
  plain_total total ->
  item_loop sale (VDict catalogue) items (total, errors)
  = Ok (fold_left num_plus
          (map (fun item => NFloat (line_amount catalogue item)) items) total,
        errors)
  /\ plain_total (fold_left num_plus
          (map (fun item => NFloat (line_amount catalogue item)) items) total).
Proof.
  induction items as [| item items IH]; intros total errors Hvalid Hrange Hplain.
  - split; [reflexivity | exact Hplain].
  - simpl in Hvalid, Hrange.
    apply andb_true_iff in Hvalid as [Hv Hvs].
    apply andb_true_iff in Hrange as [Hr Hrs].
    cbn [item_loop map fold_left].
    rewrite (valid_item_step sale catalogue item total errors Hv Hr Hplain).
    simpl rbind. apply IH; [exact Hvs | exact Hrs |].
    destruct total; exact I.
Qed.

Lemma valid_sale_cost (catalogue : dict) (sale : value) :
  valid_sale catalogue sale = true ->
  forallb quantity_in_range (items_of sale) = true ->
  compute_sale_cost sale (VDict catalogue) = Ok (sale_total catalogue sale, [])
  /\ plain_total (sale_total catalogue sale).
Proof.
  intros Hvalid Hrange.
  destruct sale as [| | | | | | d]; try discriminate Hvalid.
  unfold valid_sale in Hvalid. unfold items_of, field in Hrange.
  unfold compute_sale_cost, sale_total, sum_of, items_of, field. simpl.
  destruct (dict_get d "items" (VList [])) as [| | | | | items |];
    try discriminate Hvalid.
  simpl. apply valid_item_loop; [exact Hvalid | exact Hrange | reflexivity].
Qed.

Lemma valid_sale_loop (catalogue : dict) (sales : list value) :
  forall (total : number) (errors : list string),
  forallb (valid_sale catalogue) sales = true ->
  forallb (fun sale => forallb quantity_in_range (items_of sale)) sales = true ->
  plain_total total ->
  sale_loop (VDict catalogue) sales (total, errors)
  = Ok (fold_left num_plus (map (sale_total catalogue) sales) total, errors).
Proof.
  induction sales as [| sale sales IH]; intros total errors Hvalid Hrange Hplain.
  - reflexivity.
  - simpl in Hvalid, Hrange.
    apply andb_true_iff in Hvalid as [Hv Hvs].
    apply andb_true_iff in Hrange as [Hr Hrs].
    cbn [sale_loop map fold_left].
    destruct (valid_sale_cost catalogue sale Hv Hr) as [Ecost Hcost].
    rewrite Ecost. simpl rbind.
    destruct (num_add_plain total (sale_total catalogue sale) Hplain Hcost)
      as [Eadd Hsum].
    rewrite Eadd. simpl rbind. rewrite app_nil_r.
    apply IH; assumption.
Qed.

(** C1 (amended): for a price catalogue and a list of sales with no invalid
    item, whose integer quantities are all in the floats' range, the grand
    total is the sum over all sales and all their line items of
    price(product) × quantity, and the error list is empty. *)
Theorem total_is_sum_of_amounts (catalogue : dict) (sales : list value) :
  forallb (valid_sale catalogue) sales = true ->
  forallb (fun sale => forallb quantity_in_range (items_of sale)) sales = true ->
  total_of_sales (VDict catalogue) sales = Ok (grand_total catalogue sales, []).
Proof.
  intros Hvalid Hrange. unfold total_of_sales, grand_total, sum_of.
  apply valid_sale_loop; [exact Hvalid | exact Hrange | reflexivity].
Qed.

(** *** Negative quantities *)

Lemma negative_quantity_value (quantity : value) :
  negative_number quantity = true ->
  numeric quantity = true /\ truthy quantity = true
  /\ is_negative (quantity_value quantity) = true.
Proof.
  destruct quantity as [| | z | f | | |]; simpl; intros Hneg; try discriminate Hneg.
  - apply Z.ltb_lt in Hneg. repeat split.
    + destruct (Z.eqb_spec z 0); [lia | reflexivity].
    + apply of_Z_negative. exact Hneg.
  - repeat split; [| exact Hneg]. destruct f as [| | | [] m e]; try discriminate Hneg;
      reflexivity.
Qed.

Lemma fadd_zero_negative (x : float) :
  is_negative x = true -> fadd (of_Z 0) x = x.
Proof.
  destruct x as [| [] | | [] m e]; intros Hx; try discriminate Hx; reflexivity.
Qed.

(** C10 (amended): a line item whose product is a catalogue key with a
    float-coercible price and whose quantity is a negative number in the
    floats' range records no error and adds price × quantity to the total;
    the amount has the negative sign when the price is positive, and a sale
    of that one item has the amount as its grand total when it is negative. *)
Theorem negative_quantity_is_costed (sale : value) (catalogue d : dict)
    (name : string) (entry : value) (p : float) (total : number)
    (errors : list string) :
  let quantity := dict_get d "quantity" (VInt 0) in
  let amount := fmul p (quantity_value quantity) in
  dict_get d "product" VNone = VStr name ->
  name <> "" ->
  lookup name catalogue = Some entry ->
  py_float entry = Ok p ->
  negative_number quantity = true ->
  in_range quantity = true ->
  plain_total total ->
  item_step sale (VDict catalogue) (total, errors) (VDict d)
    = Ok (num_plus total (NFloat amount), errors)
  /\ (is_positive p = true -> sign_bit amount = true)
  /\ (is_negative amount = true ->
      total_of_sales (VDict catalogue) [VDict [("items", VList [VDict d])]]
      = Ok (NFloat amount, [])).
Proof.
  intros quantity amount Hproduct Hname Hentry Hfloat Hneg Hrange Hplain.
  destruct (negative_quantity_value quantity Hneg) as [Hnum [Htruthy Hq]].
  assert (Hstep : forall s t es, plain_total t ->
            item_step s (VDict catalogue) (t, es) (VDict d)
            = Ok (num_plus t (NFloat amount), es)).
  { intros s t es Ht. rewrite item_step_truthy.
    - rewrite Hproduct. fold quantity. cbn [py_contains rbind]. rewrite Hentry.
      cbn [negb]. unfold add_item_cost. cbn [py_getitem rbind]. rewrite Hentry.
      cbn [rbind]. rewrite Hfloat. cbn [rbind].
      rewrite (float_mul_in_range p quantity Hnum Hrange). cbn [rbind].
      destruct (num_add_plain t (NFloat amount) Ht I) as [E _].
      fold amount. rewrite E. reflexivity.
    - rewrite Hproduct. apply truthy_str. exact Hname.
    - exact Htruthy. }
  split; [apply Hstep; exact Hplain |]. split.
  - intros Hp. apply fmul_sign; assumption.
  - intros Hamount. unfold total_of_sales. cbn [sale_loop].
    unfold compute_sale_cost.
    cbn [py_get dict_get lookup String.eqb Ascii.eqb Bool.eqb py_iter rbind item_loop].
    rewrite (Hstep _ (NInt 0) [] eq_refl).
    cbn [rbind num_plus app sale_loop].
    rewrite (fadd_zero_negative amount Hamount).
    destruct (num_add_plain (NInt 0) (NFloat amount) eq_refl I) as [E _].
    rewrite E. cbn [rbind num_plus].
    rewrite (fadd_zero_negative amount Hamount). reflexivity.
Qed.

(** *** Prices that do not coerce *)

Lemma invalid_price_is_reported (sale : value) (catalogue d : dict) (name : string)
    (entry : value) (e : exn) (total : number) (messages : list string) :
  dict_get d "product" VNone = VStr name ->
  name <> "" ->
  truthy (dict_get d "quantity" (VInt 0)) = true ->
  lookup name catalogue = Some entry ->
  py_float entry = Raise e ->
  Stateful.caught e = true ->
  item_step sale (VDict catalogue) (total, messages) (VDict d)
  = Ok (total, messages ++ ["Invalid price for product '" +:+ name
                              +:+ "' in price catalogue"]).
Proof.
  intros Hproduct Hname Hq Hentry Hfloat Hcaught.
  rewrite item_step_truthy.
  - rewrite Hproduct. cbn [py_contains rbind]. rewrite Hentry. cbn [negb].
    unfold add_item_cost. cbn [py_getitem rbind]. rewrite Hentry. cbn [rbind].
    rewrite Hfloat. cbn [rbind].
    destruct e; try discriminate Hcaught; reflexivity.
  - rewrite Hproduct. apply truthy_str. exact Hname.
  - exact Hq.
Qed.

(** *** Sales the engine can take *)

(** [float] raises nothing but what the loop body catches, on a value in
    range. *)
Lemma py_float_in_range (v : value) :
  in_range v = true ->
  match py_float v with
  | Ok _ => True
  | Raise e => Stateful.caught e = true
  end.
Proof.
  destruct v; simpl; intros Hr; try exact I; try reflexivity.
  - rewrite (float_of_int_in_range z Hr). exact I.
  - destruct (str_to_float s); [exact I | reflexivity].
Qed.

Lemma float_mul_regular (p : float) (q : value) :
  in_range q = true ->
  match float_mul p q with
  | Ok _ => True
  | Raise e => Stateful.caught e = true
  end.
Proof.
  destruct q; simpl; intros Hr; try exact I; try reflexivity.
  rewrite (float_of_int_in_range z Hr). exact I.
Qed.

Lemma app_singleton_neq {A} (l : list A) (a : A) : l <> l ++ [a].
Proof.
  intros E. apply (f_equal (@List.length A)) in E.
  rewrite length_app in E. simpl in E. lia.
Qed.

(** C3 (amended): for a line item whose product is a non-empty key of the
    price catalogue and whose quantity is a truthy number in the floats'
    range, the catalogue's entry being no integer outside that range, the
    error "Invalid price for product '<product>' in price catalogue" is
    recorded, the total staying as it was, if and only if the coercion of the
    entry to a float fails; otherwise price × quantity is added to the
    total. *)
Theorem price_coercion_decides (sale : value) (catalogue d : dict) (name : string)
    (entry : value) (total : number) (messages : list string) :
  let quantity := dict_get d "quantity" (VInt 0) in
  let message := "Invalid price for product '" +:+ name +:+ "' in price catalogue" in
  dict_get d "product" VNone = VStr name ->
  name <> "" ->
  lookup name catalogue = Some entry ->
  in_range entry = true ->
  numeric quantity = true ->
  truthy quantity = true ->
  in_range quantity = true ->
  plain_total total ->
  (is_ok (py_float entry) = false <->
   item_step sale (VDict catalogue) (total, messages) (VDict d)
   = Ok (total, messages ++ [message]))
  /\ (forall p, py_float entry = Ok p ->
      item_step sale (VDict catalogue) (total, messages) (VDict d)
      = Ok (num_plus total (NFloat (fmul p (quantity_value quantity))), messages)).
Proof.
  intros quantity message Hproduct Hname Hentry Hprice Hnum Htruthy Hrange Hplain.
  assert (Hok : forall p, py_float entry = Ok p ->
            item_step sale (VDict catalogue) (total, messages) (VDict d)
            = Ok (num_plus total (NFloat (fmul p (quantity_value quantity))), messages)).
  { intros p Hfloat. rewrite item_step_truthy.
    - rewrite Hproduct. fold quantity. cbn [py_contains rbind]. rewrite Hentry.
      cbn [negb]. unfold add_item_cost. cbn [py_getitem rbind]. rewrite Hentry.
      cbn [rbind]. rewrite Hfloat. cbn [rbind].
      rewrite (float_mul_in_range p quantity Hnum Hrange). cbn [rbind].
      destruct (num_add_plain total (NFloat (fmul p (quantity_value quantity)))
                  Hplain I) as [E _].
      rewrite E. reflexivity.
    - rewrite Hproduct. apply truthy_str. exact Hname.
    - exact Htruthy. }
  split; [| exact Hok].
  pose proof (py_float_in_range entry Hprice) as Hcaught.
  destruct (py_float entry) as [p | e] eqn:Hfloat; cbn [is_ok].
  - split; [discriminate |]. rewrite (Hok p eq_refl). intros E.
    injection E as _ E. exfalso. exact (app_singleton_neq _ _ E).
  - split; [intros _ | reflexivity].
    apply (invalid_price_is_reported sale catalogue d name entry e total messages);
      assumption.
Qed.
Lemma regular_item_step (sd catalogue : dict) (item : value) (total : number)
    (messages : list string) :
  regular_item catalogue item = true ->
  plain_total total ->
  exists total' messages',
    item_step (VDict sd) (VDict catalogue) (total, messages) item
    = Ok (total', messages')
    /\ plain_total total'.
Proof.
  intros Hreg Hplain.
  destruct item as [| | | | | | d]; try discriminate Hreg.
  unfold regular_item in Hreg.
  apply andb_true_iff in Hreg as [Hreg Hentry].
  apply andb_true_iff in Hreg as [Hhash Hquantity].
  destruct (truthy (dict_get d "product" VNone)) eqn:Hp.
  2: { rewrite item_step_invalid by (left; exact Hp). eauto. }
  destruct (truthy (dict_get d "quantity" (VInt 0))) eqn:Hq.
  2: { rewrite item_step_invalid by (right; exact Hq). eauto. }
  rewrite (item_step_truthy _ _ _ _ _ Hp Hq).
  destruct (dict_get d "product" VNone) as [| b | z | f | name | l | m];
    try discriminate Hhash; cbn [py_contains rbind negb]; eauto.
  destruct (lookup name catalogue) as [entry |] eqn:Ec; cbn [negb]; [| eauto].
  unfold add_item_cost. cbn [py_getitem rbind]. rewrite Ec. cbn [rbind].
  unfold dict_get in Hentry. rewrite Ec in Hentry.
  pose proof (py_float_in_range entry Hentry) as Hfloat.
  destruct (py_float entry) as [p | e]; cbn [rbind].
  2: { destruct e; try discriminate Hfloat; eauto. }
  pose proof (float_mul_regular p _ Hquantity) as Hmul.
  destruct (float_mul p (dict_get d "quantity" (VInt 0))) as [amount | e]; cbn [rbind].
  2: { destruct e; try discriminate Hmul; eauto. }
  destruct (num_add_plain total (NFloat amount) Hplain I) as [E Hsum].
  rewrite E. eauto.
Qed.

Lemma regular_item_loop (sd catalogue : dict) (items : list value) :
  forall (total : number) (messages : list string),
  forallb (regular_item catalogue) items = true ->
  plain_total total ->
  exists total' messages',
    item_loop (VDict sd) (VDict catalogue) items (total, messages)
    = Ok (total', messages')
    /\ plain_total total'.
Proof.
  induction items as [| item items IH]; intros total messages Hreg Hplain.
  - exists total, messages. split; [reflexivity | exact Hplain].
  - simpl in Hreg. apply andb_true_iff in Hreg as [Hitem Hitems].
    destruct (regular_item_step sd catalogue item total messages Hitem Hplain)
      as [t [m [E Ht]]].
    cbn [item_loop]. rewrite E. cbn [rbind]. apply IH; assumption.
Qed.

Lemma regular_sale_cost (catalogue : dict) (sale : value) :
  regular_sale catalogue sale = true ->
  exists total messages,
    compute_sale_cost sale (VDict catalogue) = Ok (total, messages)
    /\ plain_total total
    /\ forall before item after,
         items_of sale = before ++ item :: after ->
         exists acc acc',
           item_loop sale (VDict catalogue) before (NInt 0, []) = Ok acc
           /\ item_step sale (VDict catalogue) acc item = Ok acc'
           /\ item_loop sale (VDict catalogue) after acc' = Ok (total, messages).
Proof.
  intros Hreg. destruct sale as [| | | | | | sd]; try discriminate Hreg.
  unfold regular_sale in Hreg. unfold compute_sale_cost, items_of, field.
  cbn [py_get rbind].
  destruct (dict_get sd "items" (VList [])) as [| | | | | items |];
    try discriminate Hreg.
  cbn [py_iter rbind].
  destruct (regular_item_loop sd catalogue items (NInt 0) [] Hreg eq_refl)
    as [total [messages [E Hplain]]].
  exists total, messages. split; [exact E |]. split; [exact Hplain |].
  intros before item after Hsplit. subst items.
  rewrite forallb_app in Hreg. apply andb_true_iff in Hreg as [Hbefore Hrest].
  simpl in Hrest. apply andb_true_iff in Hrest as [Hitem Hafter].
  destruct (regular_item_loop sd catalogue before (NInt 0) [] Hbefore eq_refl)
    as [t1 [m1 [E1 H1]]].
  destruct (regular_item_step sd catalogue item t1 m1 Hitem H1) as [t2 [m2 [E2 H2]]].
  exists (t1, m1), (t2, m2). split; [exact E1 |]. split; [exact E2 |].
  rewrite item_loop_app, E1 in E. cbn [rbind item_loop] in E.
  rewrite E2 in E. exact E.
Qed.

Lemma regular_sale_loop (catalogue : dict) (sales : list value) :
  forall (total : number) (messages : list string),
  forallb (regular_sale catalogue) sales = true ->
  plain_total total ->
  exists total' messages',
    sale_loop (VDict catalogue) sales (total, messages) = Ok (total', messages').
Proof.
  induction sales as [| sale sales IH]; intros total messages Hreg Hplain.
  - exists total, messages. reflexivity.
  - simpl in Hreg. apply andb_true_iff in Hreg as [Hsale Hsales].
    destruct (regular_sale_cost catalogue sale Hsale) as [t [m [E [Ht _]]]].
    cbn [sale_loop]. rewrite E. cbn [rbind].
    destruct (num_add_plain total t Hplain Ht) as [Eadd Hsum].
    rewrite Eadd. cbn [rbind]. apply IH; assumption.
Qed.

(** C2 (amended): for a catalogue that is a mapping and sales that are
    mappings whose items are a sequence of mappings, with no product that is
    a list or a mapping and no integer quantity or price outside the floats'
    range, the engine returns a (total, errors) pair for every sale and the
    aggregation for the whole record; every item of a sale is reached and
    stepped, whatever the items before it recorded. *)
Theorem regular_sales_are_costed (catalogue : dict) (sales : list value) :
  forallb (regular_sale catalogue) sales = true ->
  (exists total messages,
     total_of_sales (VDict catalogue) sales = Ok (total, messages))
  /\ forall sale, In sale sales ->
     exists total messages,
       compute_sale_cost sale (VDict catalogue) = Ok (total, messages)
       /\ forall before item after,
            items_of sale = before ++ item :: after ->
            exists acc acc',
              item_loop sale (VDict catalogue) before (NInt 0, []) = Ok acc
              /\ item_step sale (VDict catalogue) acc item = Ok acc'
              /\ item_loop sale (VDict catalogue) after acc' = Ok (total, messages).
Proof.
  intros Hreg. split.
  - apply regular_sale_loop; [exact Hreg | reflexivity].
  - intros sale Hin. rewrite forallb_forall in Hreg.
    destruct (regular_sale_cost catalogue sale (Hreg sale Hin))
      as [total [messages [E [_ Hitems]]]].
    exists total, messages. split; assumption.
Qed.

(** *** The messages of a run *)

Lemma num_add_raises (a b : number) (e : exn) :
  num_add a b = Raise e -> e = OverflowError.
Proof.
  destruct a as [x | f], b as [y | g]; simpl; unfold float_of_int, rbind;
    try discriminate.
  - destruct (is_inf (of_Z x)); [| discriminate]. intros E. injection E as <-. reflexivity.
  - destruct (is_inf (of_Z y)); [| discriminate]. intros E. injection E as <-. reflexivity.
Qed.

Lemma item_step_errors (s c item : value) (total total' : number)
    (messages messages' : list string) :
  item_step s c (total, messages) item = Ok (total', messages') ->
  messages' = messages ++ item_errors s c item.
Proof.
  unfold item_errors, item_step, add_item_cost, rbind.
  destruct (py_get item "product" VNone) as [product |]; [| discriminate].
  destruct (py_get item "quantity" (VInt 0)) as [quantity |]; [| discriminate].
  destruct (negb (truthy product) || negb (truthy quantity)).
  - destruct (py_get s "id" (VStr "Unknown")); [| discriminate].
    intros E. injection E as _ <-. reflexivity.
  - destruct (py_contains c product) as [present |]; [| discriminate].
    destruct (negb present).
    + intros E. injection E as _ <-. reflexivity.
    + destruct (py_getitem c product) as [entry | e].
      2: { destruct e; intros E; try discriminate E; injection E as _ <-; reflexivity. }
      destruct (py_float entry) as [p | e].
      2: { destruct e; intros E; try discriminate E; injection E as _ <-; reflexivity. }
      destruct (float_mul p quantity) as [amount | e].
      2: { destruct e; intros E; try discriminate E; injection E as _ <-; reflexivity. }
      assert (Hzero : exists t, num_add (NInt 0) (NFloat amount) = Ok t).
      { eexists. reflexivity. }
      destruct Hzero as [t Et]. rewrite Et.
      destruct (num_add total (NFloat amount)) as [t' | e] eqn:Eadd.
      * intros E. injection E as _ <-. rewrite app_nil_r. reflexivity.
      * rewrite (num_add_raises _ _ _ Eadd). discriminate.
Qed.

Lemma item_loop_errors (s c : value) (items : list value) :
  forall (total total' : number) (messages messages' : list string),
  item_loop s c items (total, messages) = Ok (total', messages') ->
  messages' = messages ++ flat_map (item_errors s c) items.
Proof.
  induction items as [| item items IH]; intros total total' messages messages' E.
  - injection E as _ <-. simpl. rewrite app_nil_r. reflexivity.
  - cbn [item_loop] in E. apply rbind_ok in E as [[t m] [Estep Erest]].
    rewrite (IH _ _ _ _ Erest), (item_step_errors _ _ _ _ _ _ _ Estep).
    simpl. rewrite app_assoc. reflexivity.
Qed.

Lemma compute_sale_cost_errors (s c : value) (total : number)
    (messages : list string) :
  compute_sale_cost s c = Ok (total, messages) -> messages = sale_errors c s.
Proof.
  unfold compute_sale_cost, sale_errors. intros E.
  apply rbind_ok in E as [items_field [Efield E]]. rewrite Efield.
  apply rbind_ok in E as [items [Eiter E]]. rewrite Eiter.
  apply (item_loop_errors _ _ _ _ _ _ _ E).
Qed.

Lemma sale_loop_errors (c : value) (sales : list value) :
  forall (total total' : number) (messages messages' : list string),
  sale_loop c sales (total, messages) = Ok (total', messages') ->
  messages' = messages ++ flat_map (sale_errors c) sales.
Proof.
  induction sales as [| s sales IH]; intros total total' messages messages' E.
  - injection E as _ <-. simpl. rewrite app_nil_r. reflexivity.
  - cbn [sale_loop] in E. apply rbind_ok in E as [[sale_cost errs] [Ecost E]].
    apply rbind_ok in E as [t [_ E]].
    rewrite (IH _ _ _ _ E), (compute_sale_cost_errors _ _ _ _ Ecost).
    simpl. rewrite app_assoc. reflexivity.
Qed.


End EngineFacts.

(** * The engine, statement by statement, against the function *)

Section StatefulFacts.

Context `{Builtins}.

Lemma loop_body_run (item : value) (fr : frame) :
  Stateful.loop_body item fr =
  match item_step (sale fr) (price_catalogue fr) (total_cost fr, errors fr) item with
  | Ok (total, messages) => (Done tt, with_locals fr total messages)
  | Raise e => (Raised e, fr)
  end.
Proof.
  unfold Stateful.loop_body, item_step, add_item_cost, with_locals.
  unfold bind, eval, Stateful.read, try_except, Stateful.errors_append,
    Stateful.set_total_cost, rbind.
  destruct (py_get item "product" VNone) as [product |]; [| reflexivity].
  destruct (py_get item "quantity" (VInt 0)) as [quantity |]; [| reflexivity].
  destruct (negb (truthy product) || negb (truthy quantity)).
  - destruct (py_get (sale fr) "id" (VStr "Unknown")); reflexivity.
  - destruct (py_contains (price_catalogue fr) product) as [present |]; [| reflexivity].
    destruct (negb present); [reflexivity |].
    destruct (py_getitem (price_catalogue fr) product) as [entry | e];
      [| destruct e; reflexivity].
    destruct (py_float entry) as [p | e]; [| destruct e; reflexivity].
    destruct (float_mul p quantity) as [amount | e]; [| destruct e; reflexivity].
    destruct (num_add (total_cost fr) (NFloat amount)) as [total | e];
      [reflexivity | destruct e; reflexivity].
Qed.

Lemma with_locals_same (fr : frame) : with_locals fr (total_cost fr) (errors fr) = fr.
Proof. destruct fr; reflexivity. Qed.

Lemma for_each_run (items : list value) :
  forall fr : frame,
  exists total messages,
    for_each items Stateful.loop_body fr
    = (to_outcome (rbind (item_loop (sale fr) (price_catalogue fr) items
                            (total_cost fr, errors fr))
                         (fun _ => Ok tt)),
       with_locals fr total messages)
    /\ (forall acc,
          item_loop (sale fr) (price_catalogue fr) items (total_cost fr, errors fr)
          = Ok acc -> acc = (total, messages)).
Proof.
  induction items as [| item items IH]; intros fr.
  - exists (total_cost fr), (errors fr). rewrite with_locals_same. split.
    + reflexivity.
    + intros acc E. injection E as <-. reflexivity.
  - cbn [for_each item_loop]. unfold bind at 1. rewrite loop_body_run.
    destruct (item_step (sale fr) (price_catalogue fr) (total_cost fr, errors fr) item)
      as [[total messages] | e].
    + destruct (IH (with_locals fr total messages)) as [total' [messages' [E Hacc]]].
      exists total', messages'. split; [exact E | exact Hacc].
    + exists (total_cost fr), (errors fr). rewrite with_locals_same. split.
      * reflexivity.
      * intros acc E. discriminate E.
Qed.

(** The whole body: what it returns and the frame it ends in. *)
Lemma compute_sale_cost_run (s c : value) (w : world) :
  exists total messages,
    Stateful.compute_sale_cost (Stateful.enter s c w)
    = (to_outcome (compute_sale_cost s c),
       {| sale := s; price_catalogue := c;
          total_cost := total; errors := messages; env := w |}).
Proof.
  unfold Stateful.compute_sale_cost, compute_sale_cost.
  unfold bind at 1. unfold Stateful.read at 1. cbn [Stateful.enter sale].
  unfold bind at 1. unfold eval at 1.
  destruct (py_get s "items" (VList [])) as [items_field | e]; cbn [rbind to_outcome].
  2: { exists (NInt 0), []. reflexivity. }
  unfold bind at 1. unfold eval at 1.
  destruct (py_iter items_field) as [items | e]; cbn [rbind to_outcome].
  2: { exists (NInt 0), []. reflexivity. }
  unfold bind at 1.
  destruct (for_each_run items (Stateful.enter s c w)) as [total [messages [E Hacc]]].
  fold (Stateful.enter s c w). rewrite E. clear E.
  unfold with_locals.
  cbn [Stateful.enter sale price_catalogue total_cost errors env] in Hacc |- *.
  destruct (item_loop s c items (NInt 0, [])) as [[total' messages'] | e];
    cbn [rbind to_outcome].
  - specialize (Hacc _ eq_refl). injection Hacc as -> ->.
    exists total, messages. reflexivity.
  - exists total, messages. reflexivity.
Qed.

(** C9: a call of [compute_sale_cost] leaves the sale, the price catalogue
    and the world (what was printed, what was written) as they were: the
    frame at the end differs from the frame at entry in the two locals only,
    and what the call returns is the (total, errors) pair of the function. *)
Theorem compute_sale_cost_leaves_arguments (s c : value) (w : world) :
  let run := Stateful.compute_sale_cost (Stateful.enter s c w) in
  fst run = to_outcome (compute_sale_cost s c)
  /\ sale (snd run) = s
  /\ price_catalogue (snd run) = c
  /\ env (snd run) = w
  /\ same_outside (Stateful.enter s c w) (snd run).
Proof.
  intros run. unfold run.
  destruct (compute_sale_cost_run s c w) as [total [messages E]].
  rewrite E. unfold same_outside. cbn. repeat split.
Qed.

End StatefulFacts.

(** * Properties of the program *)

Section ProgramFacts.

Context `{Builtins}.

Lemma call_compute_sale_cost_run (s c : value) (w : world) :
  call_compute_sale_cost s c w
  = (to_outcome (rbind (compute_sale_cost s c) (fun r => Ok (r, c))), logged w [s]).
Proof.
  unfold call_compute_sale_cost.
  destruct (compute_sale_cost_run s c (logged w [s])) as [total [messages E]].
  unfold logged in E. rewrite E. cbn [price_catalogue env].
  destruct (compute_sale_cost s c); reflexivity.
Qed.

Lemma logged_nil (w : world) : logged w [] = w.
Proof. destruct w. unfold logged. simpl. rewrite app_nil_r. reflexivity. Qed.

Lemma logged_app (w : world) (l1 l2 : list value) :
  logged (logged w l1) l2 = logged w (l1 ++ l2).
Proof. unfold logged. simpl. rewrite app_assoc. reflexivity. Qed.

Lemma main_loop_run (c : value) (sales : list value) :
  forall (total : number) (messages : list string) (w : world),
  exists called,
    main_loop c sales total messages w
    = (to_outcome (sale_loop c sales (total, messages)), logged w called)
    /\ (is_ok (sale_loop c sales (total, messages)) = true -> called = sales).
Proof.
  induction sales as [| s sales IH]; intros total messages w.
  - exists []. rewrite logged_nil. split; reflexivity.
  - cbn [main_loop sale_loop]. unfold bind at 1.
    rewrite call_compute_sale_cost_run.
    destruct (compute_sale_cost s c) as [[sale_cost sale_errors] | e];
      cbn [rbind to_outcome].
    + unfold bind at 1. unfold eval at 1.
      destruct (num_add total sale_cost) as [total' | e]; cbn [rbind to_outcome].
      * destruct (IH total' (messages ++ sale_errors) (logged w [s]))
          as [called [E Hcalled]].
        exists (s :: called). rewrite E, logged_app. split; [reflexivity |].
        intros Hok. rewrite (Hcalled Hok). reflexivity.
      * exists [s]. split; [reflexivity | discriminate].
    + exists [s]. split; [reflexivity | discriminate].
Qed.

(** A whole run on two loaded documents, the second a list: the report of
    the aggregation, or its exception. *)
Lemma main_run (disk : string -> file) (program catalogue_path sales_path : string)
    (clock : float * float) (catalogue : value) (sales : list value)
    (total : number) (messages : list string) (w : world) :
  disk catalogue_path = Document catalogue ->
  disk sales_path = Document (VList sales) ->
  total_of_sales catalogue sales = Ok (total, messages) ->
  main disk [program; catalogue_path; sales_path] clock w
  = write_results total (fsub (snd clock) (fst clock)) messages (logged w sales).
Proof.
  intros Hc Hs Htotal. unfold main, load_json_file. rewrite Hc, Hs.
  unfold bind at 1. unfold ret at 1. unfold bind at 1. unfold ret at 1.
  unfold bind at 1.
  destruct (main_loop_run catalogue sales (NInt 0) [] w) as [called [E Hcalled]].
  unfold total_of_sales in Htotal. rewrite Htotal in E, Hcalled.
  rewrite E, (Hcalled eq_refl). reflexivity.
Qed.
(** C6: the flat error list of a run is the concatenation, sale by sale in
    the order of the record, of each sale's messages, themselves the
    concatenation item by item of each item's messages: nothing is reordered
    and nothing is dropped. *)
Theorem errors_follow_encounter_order (c : value) (sales : list value)
    (w w' : world) (total : number) (messages : list string) :
  main_loop c sales (NInt 0) [] w = (Done (total, messages), w') ->
  messages = flat_map (sale_errors c) sales.
Proof.
  intros E. destruct (main_loop_run c sales (NInt 0) [] w) as [called [Erun _]].
  rewrite Erun in E.
  destruct (sale_loop c sales (NInt 0, [])) as [[t m] | e] eqn:Eloop;
    cbn [to_outcome] in E; [| discriminate E].
  injection E as -> -> _.
  apply (sale_loop_errors _ _ _ _ _ _ Eloop).
Qed.

(** C7: when the sales-record document is not a sequence, the run prints
    the diagnostic and exits with status 1, without a call of the costing
    engine and without writing a file. *)
Theorem sales_record_must_be_a_list (disk : string -> file)
    (program catalogue_path sales_path : string) (clock : float * float)
    (catalogue_doc sales_doc : value) (w : world) :
  disk catalogue_path = Document catalogue_doc ->
  disk sales_path = Document sales_doc ->
  (forall sales, sales_doc <> VList sales) ->
  main disk [program; catalogue_path; sales_path] clock w
  = (SysExit 1,
     {| stdout := stdout w +:+ "Error: Sales record must be a list of sales" +:+ newline;
        files := files w;
        costed := costed w |})
  /\ exit_status (fst (main disk [program; catalogue_path; sales_path] clock w)) <> 0.
Proof.
  intros Hc Hs Hshape.
  assert (E : main disk [program; catalogue_path; sales_path] clock w
              = (SysExit 1,
                 {| stdout := stdout w +:+ "Error: Sales record must be a list of sales"
                                +:+ newline;
                    files := files w; costed := costed w |})).
  { unfold main, load_json_file. rewrite Hc, Hs.
    destruct sales_doc as [| | | | | sales |]; try reflexivity.
    exfalso. apply (Hshape sales). reflexivity. }
  split; [exact E |]. rewrite E. simpl. discriminate.
Qed.

(** C8: the report is the header line, the total with two decimals, the
    execution time with three, then either the header of the errors (after
    a blank line) and every message in order, or the line saying there was
    none; the newline-joined lines are printed, and the same text is what
    SalesResults.txt holds. *)
Theorem report_is_printed_and_written (total : number) (execution_time : float)
    (messages : list string) (amount : string) (w : world) :
  format_number 2 total = Ok amount ->
  let lines :=
    [ "=== Sales Computation Results ===";
      "Total Cost: $" +:+ amount;
      "Execution Time: " +:+ format_fixed 3 execution_time +:+ " seconds" ]
    ++ match messages with
       | [] => [newline +:+ "No errors encountered during execution."]
       | _ :: _ => (newline +:+ "Errors encountered during execution:") :: messages
       end in
  let text := String.concat newline lines in
  exists w',
    write_results total execution_time messages w = (Done tt, w')
    /\ stdout w' = stdout w +:+ text +:+ newline
    /\ read_file "SalesResults.txt" w' = Some text.
Proof.
  intros Hamount lines text.
  unfold write_results, report_lines. rewrite Hamount. cbn [rbind].
  unfold text, lines.
  destruct messages as [| message messages];
    unfold bind, eval, print, write_file; cbn [to_outcome];
    (eexists; split; [reflexivity |]; split; reflexivity).
Qed.
End ProgramFacts.

(** * The properties on the sample documents *)


Lemma unknown_product_is_reported_witness :
  item_step (VDict [("id", VStr "S1")]) (VDict [("Bread", VInt 3)]) (NInt 0, [])
            (VDict [("product", VStr "Milk"); ("quantity", VInt 2)])
  = Ok (NInt 0, ["Product 'Milk' not found in price catalogue"]).
Proof.
  apply (unknown_product_is_reported
           (VDict [("id", VStr "S1")]) [("Bread", VInt 3)]
           [("product", VStr "Milk"); ("quantity", VInt 2)] (NInt 0) []).
  - reflexivity.
  - reflexivity.
  - reflexivity.
  - intros name E. injection E as <-. reflexivity.
Defined.

(** C5 as stated fails: a product that is a non-empty list is no key of the
    catalogue and the quantity is truthy, yet no error is recorded: the
    membership test raises [TypeError], the list cannot be hashed, and the
    exception leaves [compute_sale_cost]. *)
Lemma listed_product_is_not_reported :
  let product := dict_get listed_item "product" VNone in
  truthy product = true
  /\ truthy (dict_get listed_item "quantity" (VInt 0)) = true
  /\ (forall name, product = VStr name -> lookup name scenario_catalogue = None)
  /\ item_step (VDict [("id", VStr "S1")]) (VDict scenario_catalogue) (NInt 0, [])
               (VDict listed_item)
     = Raise TypeError
  /\ item_step (VDict [("id", VStr "S1")]) (VDict scenario_catalogue) (NInt 0, [])
               (VDict listed_item)
     <> Ok (NInt 0, ["Product '" +:+ py_str product +:+ "' not found in price catalogue"])
  /\ compute_sale_cost (VDict [("id", VStr "S1"); ("items", VList [VDict listed_item])])
                       (VDict scenario_catalogue)
     = Raise TypeError.
Proof.
  cbv zeta.
  assert (E : item_step (VDict [("id", VStr "S1")]) (VDict scenario_catalogue)
                        (NInt 0, []) (VDict listed_item)
              = Raise TypeError) by (vm_compute; reflexivity).
  split; [reflexivity |]. split; [reflexivity |].
  split; [intros name H; vm_compute in H; discriminate H |].
  split; [exact E |]. split; [rewrite E; discriminate |].
  vm_compute. reflexivity.
Qed.

(** Scenario A: total cost 9.00 and no advisory error. *)
Lemma total_is_sum_of_amounts_witness :
  total_of_sales (VDict scenario_catalogue) scenario_sales
  = Ok (NFloat (of_Z 9), []).
Proof.
  exact (total_is_sum_of_amounts scenario_catalogue scenario_sales eq_refl eq_refl).
Defined.

(** C1 as stated fails: the order of [2^1024] apples has no invalid item,
    and costing it raises [OverflowError]. *)
Lemma large_quantity_overflows :
  forallb (valid_sale scenario_catalogue) large_order = true
  /\ total_of_sales (VDict scenario_catalogue) large_order = Raise OverflowError
  /\ total_of_sales (VDict scenario_catalogue) large_order
     <> Ok (grand_total scenario_catalogue large_order, []).
Proof.
  assert (E : total_of_sales (VDict scenario_catalogue) large_order
              = Raise OverflowError) by (vm_compute; reflexivity).
  split; [vm_compute; reflexivity |]. split; [exact E |].
  rewrite E. discriminate.
Qed.

(** Two returned apples at 1.50 cost -3.00. *)
Lemma negative_quantity_is_costed_witness :
  item_step VNone (VDict refund_catalogue) (NInt 0, []) (VDict returned_apples)
  = Ok (NFloat (of_Z (-3)), [])
  /\ total_of_sales (VDict refund_catalogue)
       [VDict [("items", VList [VDict returned_apples])]]
     = Ok (NFloat (of_Z (-3)), []).
Proof.
  destruct (negative_quantity_is_costed VNone refund_catalogue returned_apples
              "Apple" (VStr "1.50") (of_decimal false 15 (-1)) (NInt 0) [])
    as [Hstep [_ Htotal]].
  - reflexivity.
  - discriminate.
  - reflexivity.
  - reflexivity.
  - reflexivity.
  - reflexivity.
  - reflexivity.
  - split; [exact Hstep | apply Htotal; reflexivity].
Defined.

(** C10 as stated fails: with the negative price -2 the quantity -3 adds
    the positive amount 6, and the quantity [-2^1024] raises
    [OverflowError]. *)
Lemma negative_quantity_counterexample :
  item_step VNone (VDict refund_catalogue) (NInt 0, []) (VDict returned_refunds)
  = Ok (NFloat (of_Z 6), [])
  /\ is_negative (of_Z 6) = false
  /\ negative_number (dict_get large_return "quantity" (VInt 0)) = true
  /\ item_step VNone (VDict refund_catalogue) (NInt 0, []) (VDict large_return)
     = Raise OverflowError.
Proof.
  repeat split; vm_compute; reflexivity.
Qed.

Lemma regular_sales_are_costed_witness :
  exists total messages,
    total_of_sales (VDict scenario_catalogue) [mixed_sale] = Ok (total, messages).
Proof.
  exact (proj1 (regular_sales_are_costed scenario_catalogue [mixed_sale] eq_refl)).
Defined.

(** C2 as stated fails: an item that is no mapping, an items field that is
    no sequence, a sale that is no mapping, a product that is a list and a
    quantity out of range each make the engine raise, and the sales after
    such a sale are not costed. *)
Lemma malformed_sales_raise :
  compute_sale_cost bare_item_sale (VDict scenario_catalogue) = Raise AttributeError
  /\ compute_sale_cost scalar_items_sale (VDict scenario_catalogue) = Raise TypeError
  /\ compute_sale_cost (VList []) (VDict scenario_catalogue) = Raise AttributeError
  /\ compute_sale_cost listed_product_sale (VDict scenario_catalogue) = Raise TypeError
  /\ total_of_sales (VDict scenario_catalogue) large_order = Raise OverflowError
  /\ total_of_sales (VDict scenario_catalogue) (bare_item_sale :: scenario_sales)
     = Raise AttributeError.
Proof.
  repeat split; vm_compute; reflexivity.
Qed.

Lemma price_coercion_decides_witness :
  item_step VNone (VDict unpriced_catalogue) (NInt 0, []) (VDict bad_item)
  = Ok (NInt 0, ["Invalid price for product 'Bad' in price catalogue"]).
Proof.
  apply (proj1 (proj1 (price_coercion_decides VNone unpriced_catalogue bad_item "Bad"
                         (VStr "n/a") (NInt 0) []
                         eq_refl
                         (fun E : "Bad" = "" =>
                            eq_ind "Bad"
                              (fun s => match s with String _ _ => True | _ => False end)
                              I "" E)
                         eq_refl eq_refl eq_refl eq_refl eq_refl eq_refl))).
  reflexivity.
Defined.

(** C3 as stated fails: the price of 309 digits does not coerce and no error
    is recorded, the engine raises; the apples by the quantity [-2^1024]
    raise too though their price coerces; and the quantity "abc" is reported
    as an invalid price though the price "1.50" coerces, since the
    multiplication raises inside the same [try]. *)
Lemma price_coercion_counterexample :
  (py_float (VInt (2 ^ 1024)) = Raise OverflowError
   /\ item_step VNone (VDict unpriced_catalogue) (NInt 0, []) (VDict huge_item)
      = Raise OverflowError)
  /\ (py_float (VStr "1.50") = Ok (of_decimal false 15 (-1))
      /\ item_step VNone (VDict unpriced_catalogue) (NInt 0, []) (VDict large_return)
         = Raise OverflowError)
  /\ (truthy (dict_get worded_quantity "quantity" (VInt 0)) = true
      /\ item_step VNone (VDict unpriced_catalogue) (NInt 0, []) (VDict worded_quantity)
         = Ok (NInt 0, ["Invalid price for product 'Apple' in price catalogue"])).
Proof.
  repeat split; vm_compute; reflexivity.
Qed.

(** The two messages for Milk both appear, around the one of the item
    without quantity. *)
Lemma errors_follow_encounter_order_witness :
  [ "Product 'Milk' not found in price catalogue";
    "Invalid item in sale S5: Missing product name or quantity";
    "Product 'Milk' not found in price catalogue" ]
  = flat_map (sale_errors (VDict scenario_catalogue)) [mixed_sale].
Proof.
  apply (errors_follow_encounter_order (VDict scenario_catalogue) [mixed_sale]
           fresh_world (logged fresh_world [mixed_sale]) (NFloat (of_Z 6))).
  vm_compute. reflexivity.
Defined.

(** Scenario D: the catalogue, a mapping, given as the sales record. *)
Lemma sales_record_must_be_a_list_witness :
  main scenario_disk ["computeSales.py"; "priceCatalogue.json"; "priceCatalogue.json"]
       (of_Z 10, of_Z 12) fresh_world
  = (SysExit 1,
     {| stdout := "Error: Sales record must be a list of sales" +:+ newline;
        files := [];
        costed := [] |}).
Proof.
  apply (proj1 (sales_record_must_be_a_list scenario_disk "computeSales.py"
                  "priceCatalogue.json" "priceCatalogue.json" (of_Z 10, of_Z 12)
                  (VDict scenario_catalogue) (VDict scenario_catalogue) fresh_world
                  eq_refl eq_refl
                  (fun sales (E : VDict scenario_catalogue = VList sales) =>
                     eq_ind (VDict scenario_catalogue)
                       (fun v => match v with VDict _ => True | _ => False end)
                       I (VList sales) E))).
Defined.

Lemma report_is_printed_and_written_witness :
  exists w',
    write_results (NFloat (of_Z 9)) (of_Z 2) [] fresh_world = (Done tt, w')
    /\ stdout w'
       = "=== Sales Computation Results ===" +:+ newline
           +:+ "Total Cost: $9.00" +:+ newline
           +:+ "Execution Time: 2.000 seconds" +:+ newline
           +:+ newline +:+ "No errors encountered during execution." +:+ newline
    /\ read_file "SalesResults.txt" w'
       = Some ("=== Sales Computation Results ===" +:+ newline
                 +:+ "Total Cost: $9.00" +:+ newline
                 +:+ "Execution Time: 2.000 seconds" +:+ newline
                 +:+ newline +:+ "No errors encountered during execution.").
Proof.
  exact (report_is_printed_and_written (NFloat (of_Z 9)) (of_Z 2) [] "9.00"
           fresh_world eq_refl).
Defined.

(** Scenario A, end to end: status 0, the report on the console and in the
    file, the engine called on the one sale. *)
Example scenario_run :
  main scenario_disk ["computeSales.py"; "priceCatalogue.json"; "salesRecord.json"]
       (of_Z 10, of_Z 12) fresh_world
  = (Done tt,
     {| stdout := "=== Sales Computation Results ===" +:+ newline
                    +:+ "Total Cost: $9.00" +:+ newline
                    +:+ "Execution Time: 2.000 seconds" +:+ newline
                    +:+ newline +:+ "No errors encountered during execution."
                    +:+ newline;
        files := [("SalesResults.txt",
                   "=== Sales Computation Results ===" +:+ newline
                     +:+ "Total Cost: $9.00" +:+ newline
                     +:+ "Execution Time: 2.000 seconds" +:+ newline
                     +:+ newline +:+ "No errors encountered during execution.")];
        costed := scenario_sales |}).
Proof.
  vm_compute. reflexivity.
Qed.

(** * Further properties of the engine and of the program *)

Section FurtherFacts.

Context `{Builtins}.

Lemma compute_sale_cost_items (sale c : value) :
  compute_sale_cost sale c
  = rbind (iterated_items sale) (fun items => item_loop sale c items (NInt 0, [])).
Proof.
  unfold compute_sale_cost, iterated_items.
  destruct (py_get sale "items" (VList [])); reflexivity.
Qed.

Lemma prefix_append (p s : string) : String.prefix p (p +:+ s) = true.
Proof.
  induction p as [| c p IH]; simpl.
  - destruct s; reflexivity.
  - destruct (ascii_dec c c) as [_ | Hne]; [exact IH | contradiction].
Qed.

Lemma invalid_item_form (sale_id : value) :
  advisory_form (invalid_item_message sale_id) = true.
Proof.
  unfold advisory_form, invalid_item_message. rewrite prefix_append. reflexivity.
Qed.

Lemma not_found_form (product : value) :
  advisory_form (not_found_message product) = true.
Proof.
  unfold advisory_form, not_found_message. rewrite (prefix_append "Product '").
  apply orb_true_iff. left. apply orb_true_r.
Qed.

Lemma invalid_price_form (product : value) :
  advisory_form (invalid_price_message product) = true.
Proof.
  unfold advisory_form, invalid_price_message.
  rewrite (prefix_append "Invalid price for product '"). apply orb_true_r.
Qed.

(** What one turn of the loop does when it ends normally: it records one
    message of an advisory form and keeps the total, or it keeps the
    messages and the total becomes a float. *)
Lemma item_step_cases (s c item : value) (total total' : number)
    (messages messages' : list string) :
  item_step s c (total, messages) item = Ok (total', messages') ->
  (total' = total
   /\ exists message, messages' = messages ++ [message]
                      /\ advisory_form message = true)
  \/ (messages' = messages /\ is_float total' = true).
Proof.
  unfold item_step, add_item_cost, rbind.
  destruct (py_get item "product" VNone) as [product |]; [| discriminate].
  destruct (py_get item "quantity" (VInt 0)) as [quantity |]; [| discriminate].
  destruct (negb (truthy product) || negb (truthy quantity)).
  - destruct (py_get s "id" (VStr "Unknown")) as [sale_id |]; [| discriminate].
    intros E. injection E as <- <-. left. split; [reflexivity |].
    eexists. split; [reflexivity | apply invalid_item_form].
  - destruct (py_contains c product) as [present |]; [| discriminate].
    destruct (negb present).
    + intros E. injection E as <- <-. left. split; [reflexivity |].
      eexists. split; [reflexivity | apply not_found_form].
    + assert (Hcaught : Ok (total, messages ++ [invalid_price_message product])
                        = Ok (total', messages') ->
                        (total' = total
                         /\ exists message, messages' = messages ++ [message]
                                            /\ advisory_form message = true)
                        \/ (messages' = messages /\ is_float total' = true)).
      { intros E. injection E as <- <-. left. split; [reflexivity |].
        eexists. split; [reflexivity | apply invalid_price_form]. }
      destruct (py_getitem c product) as [entry | e].
      2: { destruct e; intros E; try discriminate E; exact (Hcaught E). }
      destruct (py_float entry) as [p | e].
      2: { destruct e; intros E; try discriminate E; exact (Hcaught E). }
      destruct (float_mul p quantity) as [amount | e].
      2: { destruct e; intros E; try discriminate E; exact (Hcaught E). }
      destruct (num_add total (NFloat amount)) as [t | e] eqn:Eadd.
      * intros E. injection E as <- <-. right. split; [reflexivity |].
        destruct total as [z | f]; simpl in Eadd.
        -- unfold rbind in Eadd. destruct (float_of_int z); [| discriminate Eadd].
           injection Eadd as <-. reflexivity.
        -- injection Eadd as <-. reflexivity.
      * rewrite (num_add_raises _ _ _ Eadd). discriminate.
Qed.

Lemma item_loop_invariant (s c : value) (items : list value) :
  forall (k : nat) (acc acc' : number * list string),
  loop_invariant k acc ->
  item_loop s c items acc = Ok acc' ->
  loop_invariant (k + List.length items) acc'.
Proof.
  induction items as [| item items IH]; intros k acc acc' Hinv E.
  - injection E as <-. simpl. rewrite Nat.add_0_r. exact Hinv.
  - cbn [item_loop] in E. apply rbind_ok in E as [[t m] [Estep Erest]].
    simpl List.length. replace (k + S (List.length items))%nat
      with (S k + List.length items)%nat by lia.
    apply (IH (S k) (t, m) acc'); [| exact Erest].
    destruct acc as [t0 m0]. destruct Hinv as [Hlen [Hplain [Hzero Hforms]]].
    simpl in Hlen, Hplain, Hzero, Hforms.
    destruct (item_step_cases _ _ _ _ _ _ _ Estep)
      as [[-> [message [-> Hform]]] | [-> Hfloat]]; unfold loop_invariant; simpl.
    + rewrite length_app. simpl. repeat split.
      * lia.
      * exact Hplain.
      * intros E0. apply Hzero in E0. lia.
      * intros El. apply Hzero. lia.
      * apply Forall_app. split; [exact Hforms | repeat constructor; exact Hform].
    + destruct t as [z | f]; [discriminate Hfloat |]. repeat split.
      * lia.
      * discriminate.
      * intros El. lia.
      * exact Hforms.
Qed.

(** X11: every item of a costed sale leaves exactly one trace: a message, or
    an amount in the total. *)
Theorem every_item_errs_or_costs (sale c : value) (total : number)
    (messages : list string) :
  compute_sale_cost sale c = Ok (total, messages) ->
  exists items,
    iterated_items sale = Ok items
    /\ (List.length messages <= List.length items)%nat
    /\ (total = NInt 0 <-> List.length messages = List.length items)
    /\ (total <> NInt 0 -> is_float total = true).
Proof.
  rewrite compute_sale_cost_items. intros E.
  apply rbind_ok in E as [items [Eitems Eloop]].
  exists items. split; [exact Eitems |].
  assert (Hinit : loop_invariant 0 (NInt 0, [])).
  { unfold loop_invariant. simpl. repeat split; auto. }
  destruct (item_loop_invariant sale c items 0 _ _ Hinit Eloop)
    as [Hlen [Hplain [Hzero _]]].
  simpl in Hlen, Hplain, Hzero. repeat split.
  - exact Hlen.
  - apply Hzero.
  - apply Hzero.
  - intros Hne. destruct total as [z | f]; [| reflexivity].
    simpl in Hplain. subst z. contradiction.
Qed.

(** X12: every message of the engine has one of the three advisory forms. *)
Theorem messages_have_advisory_form (sale c : value) (total : number)
    (messages : list string) :
  compute_sale_cost sale c = Ok (total, messages) ->
  Forall (fun message => advisory_form message = true) messages.
Proof.
  rewrite compute_sale_cost_items. intros E.
  apply rbind_ok in E as [items [_ Eloop]].
  assert (Hinit : loop_invariant 0 (NInt 0, [])).
  { unfold loop_invariant. simpl. repeat split; auto. }
  destruct (item_loop_invariant sale c items 0 _ _ Hinit Eloop) as [_ [_ [_ Hforms]]].
  exact Hforms.
Qed.

Lemma py_get_raises (o : value) (k : string) (default : value) (e : exn) :
  py_get o k default = Raise e -> e = AttributeError.
Proof. destruct o; simpl; intros E; try discriminate E; injection E as <-; reflexivity. Qed.

Lemma py_iter_raises (v : value) (e : exn) : py_iter v = Raise e -> e = TypeError.
Proof. destruct v; simpl; intros E; try discriminate E; injection E as <-; reflexivity. Qed.

Lemma py_float_raises (v : value) (e : exn) :
  py_float v = Raise e -> e = ValueError \/ e = TypeError \/ e = OverflowError.
Proof.
  destruct v; simpl; intros E; try discriminate E;
    try (injection E as <-; auto; fail).
  - unfold float_of_int in E. destruct (is_inf (of_Z z)); [| discriminate E].
    injection E as <-. auto.
  - destruct (str_to_float s); [discriminate E |]. injection E as <-. auto.
Qed.

Lemma float_mul_raises (p : float) (q : value) (e : exn) :
  float_mul p q = Raise e -> e = TypeError \/ e = OverflowError.
Proof.
  destruct q; simpl; intros E; try discriminate E;
    try (injection E as <-; auto; fail).
  unfold float_of_int, rbind in E. destruct (is_inf (of_Z z)); [| discriminate E].
  injection E as <-. auto.
Qed.

Lemma item_step_raises (s c item : value) (acc : number * list string) (e : exn) :
  item_step s c acc item = Raise e ->
  e <> ValueError /\ (forall d, c = VDict d -> escapes e = true).
Proof.
  destruct acc as [total messages].
  unfold item_step, add_item_cost, rbind.
  destruct (py_get item "product" VNone) as [product | e1] eqn:Ep.
  2: { intros E. injection E as <-. rewrite (py_get_raises _ _ _ _ Ep).
       split; [discriminate | reflexivity]. }
  destruct (py_get item "quantity" (VInt 0)) as [quantity | e1] eqn:Eq.
  2: { intros E. injection E as <-. rewrite (py_get_raises _ _ _ _ Eq).
       split; [discriminate | reflexivity]. }
  destruct (negb (truthy product) || negb (truthy quantity)).
  - destruct (py_get s "id" (VStr "Unknown")) as [sale_id | e1] eqn:Eid.
    + discriminate.
    + intros E. injection E as <-. rewrite (py_get_raises _ _ _ _ Eid).
      split; [discriminate | reflexivity].
  - destruct (py_contains c product) as [present | e1] eqn:Ein.
    2: { intros E. injection E as <-. split.
         - destruct c, product; simpl in Ein; try discriminate Ein;
             injection Ein as <-; discriminate.
         - intros d ->. destruct product; simpl in Ein; try discriminate Ein;
             injection Ein as <-; reflexivity. }
    destruct (negb present) eqn:Epresent; [discriminate |].
    destruct (py_getitem c product) as [entry | e1] eqn:Eget.
    2: { destruct e1; intros E; try discriminate E; injection E as <-;
           (split; [discriminate |]); intros d ->;
           destruct present; try discriminate Epresent;
           destruct product; simpl in Ein, Eget; try discriminate Ein;
             try discriminate Eget;
           destruct (lookup s0 d); discriminate. }
    destruct (py_float entry) as [p | e1] eqn:Efloat.
    2: { destruct (py_float_raises _ _ Efloat) as [-> | [-> | ->]];
           intros E; try discriminate E; injection E as <-;
           split; [discriminate | reflexivity]. }
    destruct (float_mul p quantity) as [amount | e1] eqn:Emul.
    2: { destruct (float_mul_raises _ _ _ Emul) as [-> | ->];
           intros E; try discriminate E; injection E as <-;
           split; [discriminate | reflexivity]. }
    destruct (num_add total (NFloat amount)) as [t | e1] eqn:Eadd; [discriminate |].
    rewrite (num_add_raises _ _ _ Eadd). intros E. injection E as <-.
    split; [discriminate | reflexivity].
Qed.

Lemma item_loop_raises (s c : value) (items : list value) :
  forall (acc : number * list string) (e : exn),
  item_loop s c items acc = Raise e ->
  e <> ValueError /\ (forall d, c = VDict d -> escapes e = true).
Proof.
  induction items as [| item items IH]; intros acc e E.
  - discriminate E.
  - cbn [item_loop] in E.
    destruct (item_step s c acc item) as [acc' | e1] eqn:Estep; cbn [rbind] in E.
    + exact (IH _ _ E).
    + injection E as <-. exact (item_step_raises _ _ _ _ _ Estep).
Qed.

Lemma compute_sale_cost_raises (s c : value) (e : exn) :
  compute_sale_cost s c = Raise e ->
  e <> ValueError /\ (forall d, c = VDict d -> escapes e = true).
Proof.
  unfold compute_sale_cost.
  destruct (py_get s "items" (VList [])) as [items_field | e1] eqn:Eget; cbn [rbind].
  2: { intros E. injection E as <-. rewrite (py_get_raises _ _ _ _ Eget).
       split; [discriminate | reflexivity]. }
  destruct (py_iter items_field) as [items | e1] eqn:Eiter; cbn [rbind].
  2: { intros E. injection E as <-. rewrite (py_iter_raises _ _ Eiter).
       split; [discriminate | reflexivity]. }
  apply item_loop_raises.
Qed.

(** X13: whatever the documents, no [ValueError] leaves the costing of a
    record; against a catalogue that is a mapping, what leaves is an
    [AttributeError], a [TypeError] or an [OverflowError]. *)
Theorem escaping_exceptions (c : value) (sales : list value) (e : exn) :
  total_of_sales c sales = Raise e ->
  e <> ValueError /\ (forall d, c = VDict d -> escapes e = true).
Proof.
  unfold total_of_sales. generalize (NInt 0, @nil string).
  induction sales as [| s sales IH]; intros acc E.
  - discriminate E.
  - destruct acc as [total messages]. cbn [sale_loop] in E.
    destruct (compute_sale_cost s c) as [[sale_cost errs] | e1] eqn:Ecost;
      cbn [rbind] in E.
    + destruct (num_add total sale_cost) as [t | e1] eqn:Eadd; cbn [rbind] in E.
      * exact (IH _ E).
      * injection E as <-. rewrite (num_add_raises _ _ _ Eadd).
        split; [discriminate | reflexivity].
    + injection E as <-. exact (compute_sale_cost_raises _ _ _ Ecost).
Qed.

(** *** Quantities that are no numbers *)

(** X14: with a product of the catalogue whose price is no integer out of
    range, a truthy quantity that is text, a list or a mapping is reported
    as an invalid price, and the total stays. *)
Theorem worded_quantity_is_invalid_price (sale : value) (catalogue d : dict)
    (name : string) (entry : value) (total : number) (messages : list string) :
  dict_get d "product" VNone = VStr name ->
  name <> "" ->
  lookup name catalogue = Some entry ->
  in_range entry = true ->
  worded (dict_get d "quantity" (VInt 0)) = true ->
  item_step sale (VDict catalogue) (total, messages) (VDict d)
  = Ok (total, messages ++ ["Invalid price for product '" +:+ name
                              +:+ "' in price catalogue"]).
Proof.
  intros Hproduct Hname Hentry Hprice Hworded.
  assert (Htruthy : truthy (dict_get d "quantity" (VInt 0)) = true).
  { destruct (dict_get d "quantity" (VInt 0)); try discriminate Hworded;
      exact Hworded. }
  rewrite item_step_truthy.
  - rewrite Hproduct. cbn [py_contains rbind]. rewrite Hentry. cbn [negb].
    unfold add_item_cost. cbn [py_getitem rbind]. rewrite Hentry. cbn [rbind].
    pose proof (py_float_in_range entry Hprice) as Hfloat.
    destruct (py_float entry) as [p | e]; cbn [rbind].
    + destruct (dict_get d "quantity" (VInt 0)); try discriminate Hworded;
        reflexivity.
    + destruct e; try discriminate Hfloat; reflexivity.
  - rewrite Hproduct. apply truthy_str. exact Hname.
  - exact Htruthy.
Qed.

(** *** An items field that is no list *)

(** X15: an items field that is a mapping or text costs nothing when it is
    empty, and raises [AttributeError] otherwise: the loop runs over its keys
    or its characters. *)
Theorem keyed_items_are_no_items (sd : dict) (c : value) :
  let items := dict_get sd "items" (VList []) in
  (exists d, items = VDict d) \/ (exists s, items = VStr s) ->
  compute_sale_cost (VDict sd) c
  = if truthy items then Raise AttributeError else Ok (NInt 0, []).
Proof.
  intros items Hshape. unfold compute_sale_cost. cbn [py_get rbind].
  fold items. destruct Hshape as [[d ->] | [s ->]].
  - destruct d as [| [k v] d]; reflexivity.
  - destruct s as [| ch s]; reflexivity.
Qed.

(** *** A catalogue that is no mapping *)

(** X16: against a catalogue that is neither a mapping nor a list nothing is
    ever priced: a sale that is costed has the integer 0 as its total. *)
Theorem shapeless_catalogue_prices_nothing (sale c : value) (total : number)
    (messages : list string) :
  match c with VDict _ | VList _ => False | _ => True end ->
  compute_sale_cost sale c = Ok (total, messages) ->
  total = NInt 0.
Proof.
  intros Hshape. rewrite compute_sale_cost_items. intros E.
  apply rbind_ok in E as [items [_ Eloop]].
  assert (Hstep : forall item t m t' m',
             item_step sale c (t, m) item = Ok (t', m') -> t' = t).
  { intros item t m t' m'. unfold item_step, add_item_cost, rbind.
    destruct (py_get item "product" VNone) as [product |]; [| discriminate].
    destruct (py_get item "quantity" (VInt 0)) as [quantity |]; [| discriminate].
    destruct (negb (truthy product) || negb (truthy quantity)).
    - destruct (py_get sale "id" (VStr "Unknown")); [| discriminate].
      intros E. injection E as <- _. reflexivity.
    - destruct c as [| b | z | f | s | l | d]; try contradiction;
        cbn [py_contains]; try discriminate.
      destruct product; try discriminate.
      destruct (negb (is_substring s0 s)).
      + intros E. injection E as <- _. reflexivity.
      + cbn [py_getitem as_index]. intros E. injection E as <- _. reflexivity. }
  revert Eloop. generalize (@nil string) at 1. revert total messages.
  assert (Hloop : forall items t m t' m',
             item_loop sale c items (t, m) = Ok (t', m') -> t' = t).
  { clear items. induction items as [| item items IH]; intros t m t' m' E.
    - injection E as <- _. reflexivity.
    - cbn [item_loop] in E. apply rbind_ok in E as [[t1 m1] [E1 E2]].
      rewrite (IH _ _ _ _ E2). exact (Hstep _ _ _ _ _ E1). }
  intros total messages m0 E. exact (Hloop _ _ _ _ _ E).
Qed.

Lemma read_file_other (name other text : string) (fs : list (string * string)) :
  String.eqb other name = false ->
  find (fun f => String.eqb (fst f) other)
       ((name, text) :: filter (fun f => negb (String.eqb (fst f) name)) fs)
  = find (fun f => String.eqb (fst f) other) fs.
Proof.
  intros Hne. cbn [find fst]. rewrite String.eqb_sym, Hne.
  induction fs as [| [n t] fs IH]; cbn [filter find fst].
  - reflexivity.
  - destruct (String.eqb n name) eqn:En; cbn [negb find fst].
    + apply String.eqb_eq in En. subst n. rewrite String.eqb_sym, Hne. exact IH.
    + rewrite IH. reflexivity.
Qed.

Lemma write_results_run (total : number) (execution_time : float)
    (messages : list string) (w : world) :
  write_results total execution_time messages w
  = match report_text total execution_time messages with
    | Ok text => (Done tt, reported w text)
    | Raise e => (Raised e, w)
    end.
Proof.
  unfold write_results, report_text.
  destruct (report_lines total execution_time messages) as [lines | e];
    reflexivity.
Qed.

Lemma format_number_plain (d : nat) (total : number) :
  plain_total total -> exists amount, format_number d total = Ok amount.
Proof.
  destruct total as [z | f]; simpl; intros Hplain.
  - subst z. eexists. reflexivity.
  - eexists. reflexivity.
Qed.


Lemma compute_sale_cost_plain (s c : value) (total : number)
    (messages : list string) :
  compute_sale_cost s c = Ok (total, messages) -> plain_total total.
Proof.
  rewrite compute_sale_cost_items. intros E.
  apply rbind_ok in E as [items [_ Eloop]].
  assert (Hinit : loop_invariant 0 (NInt 0, [])).
  { unfold loop_invariant. simpl. repeat split; auto. }
  destruct (item_loop_invariant s c items 0 _ _ Hinit Eloop) as [_ [Hplain _]].
  exact Hplain.
Qed.

Lemma sale_loop_plain (c : value) (sales : list value) :
  forall (total total' : number) (messages messages' : list string),
  plain_total total ->
  sale_loop c sales (total, messages) = Ok (total', messages') ->
  plain_total total'.
Proof.
  induction sales as [| s sales IH]; intros total total' messages messages' Hplain E.
  - injection E as <- _. exact Hplain.
  - cbn [sale_loop] in E. apply rbind_ok in E as [[sale_cost errs] [Ecost E]].
    apply rbind_ok in E as [t [Eadd E]].
    apply (IH t total' (messages ++ errs) messages'); [| exact E].
    destruct (num_add_plain total sale_cost Hplain
                (compute_sale_cost_plain _ _ _ _ Ecost)) as [E' Hsum].
    rewrite E' in Eadd. injection Eadd as <-. exact Hsum.
Qed.

(** The loop of [main] calls the engine on the sales in order, up to the
    one that raises. *)
Lemma main_loop_log (c : value) (sales : list value) :
  forall (total : number) (messages : list string) (w : world),
  exists called rest,
    main_loop c sales total messages w
    = (to_outcome (sale_loop c sales (total, messages)), logged w called)
    /\ sales = called ++ rest
    /\ (is_ok (sale_loop c sales (total, messages)) = true -> rest = []).
Proof.
  induction sales as [| s sales IH]; intros total messages w.
  - exists [], []. rewrite logged_nil. repeat split.
  - cbn [main_loop sale_loop]. unfold bind at 1.
    rewrite call_compute_sale_cost_run.
    destruct (compute_sale_cost s c) as [[sale_cost sale_errors] | e];
      cbn [rbind to_outcome].
    + unfold bind at 1. unfold eval at 1.
      destruct (num_add total sale_cost) as [total' | e]; cbn [rbind to_outcome].
      * destruct (IH total' (messages ++ sale_errors) (logged w [s]))
          as [called [rest [E [Hsplit Hrest]]]].
        exists (s :: called), rest. rewrite E, logged_app.
        split; [reflexivity |]. split; [rewrite Hsplit; reflexivity | exact Hrest].
      * exists [s], sales. repeat split. discriminate.
    + exists [s], sales. repeat split. discriminate.
Qed.

(** A run on two loaded documents, the second a list. *)
Lemma main_on_record (disk : string -> file)
    (program catalogue_path sales_path : string) (clock : float * float)
    (catalogue : value) (sales : list value) (w : world) :
  disk catalogue_path = Document catalogue ->
  disk sales_path = Document (VList sales) ->
  exists called rest,
    sales = called ++ rest
    /\ main disk [program; catalogue_path; sales_path] clock w
       = match sale_loop catalogue sales (NInt 0, []) with
         | Ok (total, messages) =>
             write_results total (fsub (snd clock) (fst clock)) messages
               (logged w sales)
         | Raise e => (Raised e, logged w called)
         end.
Proof.
  intros Hc Hs. unfold main, load_json_file. rewrite Hc, Hs.
  unfold bind at 1. unfold ret at 1. unfold bind at 1. unfold ret at 1.
  unfold bind at 1.
  destruct (main_loop_log catalogue sales (NInt 0) [] w)
    as [called [rest [E [Hsplit Hrest]]]].
  rewrite E. exists called, rest. split; [exact Hsplit |].
  destruct (sale_loop catalogue sales (NInt 0, [])) as [[total messages] | e];
    cbn [to_outcome].
  - rewrite (Hrest eq_refl), app_nil_r in Hsplit. subst called. reflexivity.
  - reflexivity.
Qed.

(** X1: with another number of arguments than two, [main] prints the usage
    line and exits with status 1, whatever the files hold. *)
Theorem wrong_argument_count (disk : string -> file) (argv : list string)
    (clock : float * float) (w : world) :
  List.length argv <> 3%nat ->
  main disk argv clock w
  = (SysExit 1,
     printed w "Usage: python computeSales.py priceCatalogue.json salesRecord.json").
Proof.
  intros Hlen.
  destruct argv as [| a [| b [| c [| d l]]]]; try reflexivity.
  exfalso. apply Hlen. reflexivity.
Qed.


(** X4: a run on two loaded documents whose aggregation ends normally hands
    the grand total, the difference of the two clock readings and the error
    list to [write_results], after the engine was called on every sale in
    the order of the record, and ends as [write_results] ends; the total is
    the integer 0 or a float, so that formatting it does not fail. *)
Theorem costed_record_is_handed_to_the_report (disk : string -> file)
    (program catalogue_path sales_path : string) (clock : float * float)
    (catalogue : value) (sales : list value) (total : number)
    (messages : list string) (w : world) :
  disk catalogue_path = Document catalogue ->
  disk sales_path = Document (VList sales) ->
  total_of_sales catalogue sales = Ok (total, messages) ->
  main disk [program; catalogue_path; sales_path] clock w
  = write_results total (fsub (snd clock) (fst clock)) messages (logged w sales)
  /\ plain_total total
  /\ exists amount, format_number 2 total = Ok amount.
Proof.
  intros Hc Hs Htotal.
  assert (Hplain : plain_total total).
  { exact (sale_loop_plain catalogue sales (NInt 0) total [] messages eq_refl Htotal). }
  split; [| split; [exact Hplain | exact (format_number_plain 2 total Hplain)]].
  exact (main_run disk program catalogue_path sales_path clock catalogue sales
           total messages w Hc Hs Htotal).
Qed.

(** X5: when the costing of a sale raises, the run ends with that exception:
    nothing is printed, no file is written, and the engine was called on the
    sales up to that one only. *)
Theorem raising_sale_stops_the_run (disk : string -> file)
    (program catalogue_path sales_path : string) (clock : float * float)
    (catalogue : value) (sales : list value) (e : exn) (w : world) :
  disk catalogue_path = Document catalogue ->
  disk sales_path = Document (VList sales) ->
  total_of_sales catalogue sales = Raise e ->
  exists called rest,
    sales = called ++ rest
    /\ main disk [program; catalogue_path; sales_path] clock w
       = (Raised e, logged w called).
Proof.
  intros Hc Hs Htotal.
  destruct (main_on_record disk program catalogue_path sales_path clock catalogue
              sales w Hc Hs) as [called [rest [Hsplit E]]].
  unfold total_of_sales in Htotal. rewrite Htotal in E.
  exists called, rest. split; [exact Hsplit | exact E].
Qed.

(** X7: [write_results] touches one file: every other file reads as before,
    and the log of the engine's calls stays. *)
Theorem write_results_touches_one_file (total : number) (execution_time : float)
    (messages : list string) (other : string) (w : world) :
  other <> "SalesResults.txt" ->
  let w' := snd (write_results total execution_time messages w) in
  read_file other w' = read_file other w /\ costed w' = costed w.
Proof.
  intros Hother. rewrite write_results_run.
  destruct (report_text total execution_time messages) as [text | e]; cbn [snd].
  - split; [| reflexivity]. unfold read_file, reported. cbn [files].
    rewrite read_file_other; [reflexivity |].
    apply String.eqb_neq. exact Hother.
  - split; reflexivity.
Qed.



(** X9: of the lines of the report only the third, the execution time,
    depends on the clock. *)
Theorem only_the_time_line_depends_on_the_clock (total : number)
    (time1 time2 : float) (messages lines1 lines2 : list string) :
  report_lines total time1 messages = Ok lines1 ->
  report_lines total time2 messages = Ok lines2 ->
  List.length lines1 = List.length lines2
  /\ forall n, n <> 2%nat -> nth_error lines1 n = nth_error lines2 n.
Proof.
  unfold report_lines.
  destruct (format_number 2 total) as [amount | e]; cbn [rbind]; [| discriminate].
  destruct messages as [| message messages]; intros E1 E2;
    injection E1 as <-; injection E2 as <-.
  - split; [reflexivity |].
    intros [| [| [| n]]] Hn; try reflexivity. contradiction.
  - split; [reflexivity |].
    intros [| [| [| n]]] Hn; try reflexivity. contradiction.
Qed.

Lemma append_assoc (a b c : string) : (a +:+ b) +:+ c = a +:+ (b +:+ c).
Proof. induction a as [| ch a IH]; simpl; [reflexivity | rewrite IH; reflexivity]. Qed.

Lemma format_fixed_real (d : nat) (f : float) :
  is_real f = true ->
  exists sign whole places,
    format_fixed (S d) f = sign +:+ whole +:+ "." +:+ places
    /\ (sign = "" \/ sign = "-")
    /\ String.length places = S d.
Proof.
  destruct f as [s | s | | s m e]; intros Hreal; try discriminate Hreal.
  - destruct (with_point_places d 0) as [whole [places [E Hlen]]].
    exists (if s then "-" else ""), whole, places. unfold format_fixed. rewrite E.
    split; [reflexivity |]. split; [destruct s; auto | exact Hlen].
  - destruct (with_point_places d (scaled (S d) m e)) as [whole [places [E Hlen]]].
    exists (if s then "-" else ""), whole, places. unfold format_fixed. rewrite E.
    split; [reflexivity |]. split; [destruct s; auto | exact Hlen].
Qed.

(** X10: in the report a total and an execution time that are numbers are
    written with two and with three characters after the point. *)
Theorem report_numbers_have_fixed_places (total execution_time : float)
    (messages lines : list string) :
  is_real total = true ->
  is_real execution_time = true ->
  report_lines (NFloat total) execution_time messages = Ok lines ->
  exists sign whole places sign' whole' places',
    nth_error lines 1
    = Some ("Total Cost: $" +:+ sign +:+ whole +:+ "." +:+ places)
    /\ String.length places = 2%nat
    /\ nth_error lines 2
       = Some ("Execution Time: " +:+ sign' +:+ whole' +:+ "." +:+ places'
                 +:+ " seconds")
    /\ String.length places' = 3%nat
    /\ (sign = "" \/ sign = "-") /\ (sign' = "" \/ sign' = "-").
Proof.
  intros Htotal Htime E.
  destruct (format_fixed_real 1 total Htotal) as [s1 [w1 [p1 [E1 [Hs1 Hl1]]]]].
  destruct (format_fixed_real 2 execution_time Htime) as [s2 [w2 [p2 [E2 [Hs2 Hl2]]]]].
  exists s1, w1, p1, s2, w2, p2.
  unfold report_lines, format_number in E. cbn [rbind] in E.
  rewrite E1, E2 in E. rewrite !append_assoc in E.
  destruct messages; injection E as <-; repeat split; auto.
Qed.

Lemma sale_loop_app (c : value) (first second : list value) :
  forall acc : number * list string,
  sale_loop c (first ++ second) acc
  = rbind (sale_loop c first acc) (sale_loop c second).
Proof.
  induction first as [| s first IH]; intros acc.
  - reflexivity.
  - destruct acc as [total messages]. cbn [app sale_loop].
    destruct (compute_sale_cost s c) as [[sale_cost errs] | e]; cbn [rbind];
      [| reflexivity].
    destruct (num_add total sale_cost) as [t | e]; cbn [rbind]; [| reflexivity].
    apply IH.
Qed.

(** X17: the placeholder "Unknown" stands for an id that is absent only: an
    id that is present shows as [str] shows it, [None] for a null. *)
Theorem null_id_shows_as_none (sd d : dict) (c : value) (total : number)
    (messages : list string) :
  lookup "id" sd = Some VNone ->
  truthy (dict_get d "product" VNone) = false
  \/ truthy (dict_get d "quantity" (VInt 0)) = false ->
  item_step (VDict sd) c (total, messages) (VDict d)
  = Ok (total,
        messages ++ ["Invalid item in sale None: Missing product name or quantity"]).
Proof.
  intros Hid Hfalsy. rewrite (item_step_invalid sd d c total messages Hfalsy).
  unfold dict_get. rewrite Hid. reflexivity.
Qed.

(** X18: a quantity that is the boolean true is taken as the number one: no
    error, and the price times 1.0 is added. *)
Theorem true_quantity_counts_as_one (sale : value) (catalogue d : dict)
    (name : string) (entry : value) (p : float) (total : number)
    (messages : list string) :
  dict_get d "product" VNone = VStr name ->
  name <> "" ->
  dict_get d "quantity" (VInt 0) = VBool true ->
  lookup name catalogue = Some entry ->
  py_float entry = Ok p ->
  plain_total total ->
  item_step sale (VDict catalogue) (total, messages) (VDict d)
  = Ok (num_plus total (NFloat (fmul p one)), messages).
Proof.
  intros Hproduct Hname Hq Hentry Hfloat Hplain. rewrite item_step_truthy.
  - rewrite Hproduct, Hq. cbn [py_contains rbind]. rewrite Hentry. cbn [negb].
    unfold add_item_cost. cbn [py_getitem rbind]. rewrite Hentry. cbn [rbind].
    rewrite Hfloat. cbn [rbind float_mul float_of_bool].
    destruct (num_add_plain total (NFloat (fmul p one)) Hplain I) as [E _].
    rewrite E. reflexivity.
  - rewrite Hproduct. apply truthy_str. exact Hname.
  - rewrite Hq. reflexivity.
Qed.

(** *** A total that is not a number *)

Lemma fadd_nan_l (x : float) : fadd nan x = nan.
Proof. destruct x; reflexivity. Qed.

Lemma num_add_nan (n t : number) :
  num_add (NFloat nan) n = Ok t -> t = NFloat nan.
Proof.
  destruct n as [z | f]; simpl.
  - unfold rbind. destruct (float_of_int z); [| discriminate].
    intros E. injection E as <-. first [reflexivity | f_equal; apply fadd_nan_l].
  - intros E. injection E as <-. first [reflexivity | f_equal; apply fadd_nan_l].
Qed.

Lemma fadd_nan_r (x : float) : fadd x nan = nan.
Proof. destruct x; reflexivity. Qed.

Lemma num_add_nan_r (n t : number) :
  num_add n (NFloat nan) = Ok t -> t = NFloat nan.
Proof.
  destruct n as [z | f]; simpl.
  - unfold rbind. destruct (float_of_int z) as [g |]; [| discriminate].
    intros E. injection E as <-.
    first [reflexivity | f_equal; apply fadd_nan_r].
  - intros E. injection E as <-.
    first [reflexivity | f_equal; apply fadd_nan_r].
Qed.

Lemma sale_loop_nan (c : value) (sales : list value) :
  forall (total : number) (messages messages' : list string),
  sale_loop c sales (NFloat nan, messages) = Ok (total, messages') ->
  total = NFloat nan.
Proof.
  induction sales as [| s sales IH]; intros total messages messages' E.
  - injection E as <- _. reflexivity.
  - cbn [sale_loop] in E. apply rbind_ok in E as [[sale_cost errs] [_ E]].
    apply rbind_ok in E as [t [Eadd E]].
    rewrite (num_add_nan _ _ Eadd) in E. exact (IH _ _ _ E).
Qed.

(** X19: one sale whose cost is a NaN makes the grand total a NaN, whatever
    the sales before and after it, and the report shows the total as
    "nan". *)
Theorem nan_sale_makes_the_total_nan (c : value) (before after : list value)
    (s : value) (total : number) (messages errs : list string) :
  compute_sale_cost s c = Ok (NFloat nan, errs) ->
  total_of_sales c (before ++ s :: after) = Ok (total, messages) ->
  total = NFloat nan /\ format_number 2 total = Ok "nan".
Proof.
  intros Hsale E. assert (Htotal : total = NFloat nan).
  { unfold total_of_sales in E. rewrite sale_loop_app in E.
    apply rbind_ok in E as [[t0 m0] [_ E]].
    cbn [sale_loop] in E. rewrite Hsale in E. cbn [rbind] in E.
    apply rbind_ok in E as [t1 [Eadd E]].
    rewrite (num_add_nan_r _ _ Eadd) in E.
    exact (sale_loop_nan _ _ _ _ _ E). }
  split; [exact Htotal |]. rewrite Htotal. reflexivity.
Qed.


End FurtherFacts.

(** * The further properties on the sample documents *)

Lemma wrong_argument_count_witness :
  main scenario_disk ["computeSales.py"; "priceCatalogue.json"] (of_Z 10, of_Z 12)
       fresh_world
  = (SysExit 1,
     printed fresh_world
       "Usage: python computeSales.py priceCatalogue.json salesRecord.json").
Proof.
  apply wrong_argument_count. simpl. discriminate.
Defined.


Lemma costed_record_is_handed_to_the_report_witness :
  main scenario_disk ["computeSales.py"; "priceCatalogue.json"; "salesRecord.json"]
       (of_Z 10, of_Z 12) fresh_world
  = write_results (NFloat (of_Z 9)) (of_Z 2) [] (logged fresh_world scenario_sales)
  /\ plain_total (NFloat (of_Z 9))
  /\ exists amount, format_number 2 (NFloat (of_Z 9)) = Ok amount.
Proof.
  exact (costed_record_is_handed_to_the_report scenario_disk "computeSales.py"
           "priceCatalogue.json" "salesRecord.json" (of_Z 10, of_Z 12)
           (VDict scenario_catalogue) scenario_sales (NFloat (of_Z 9)) []
           fresh_world eq_refl eq_refl eq_refl).
Defined.

Lemma raising_sale_stops_the_run_witness :
  exists called rest,
    large_order = called ++ rest
    /\ main large_order_disk
           ["computeSales.py"; "priceCatalogue.json"; "salesRecord.json"]
           (of_Z 10, of_Z 12) fresh_world
       = (Raised OverflowError, logged fresh_world called).
Proof.
  apply (raising_sale_stops_the_run large_order_disk "computeSales.py"
           "priceCatalogue.json" "salesRecord.json" (of_Z 10, of_Z 12)
           (VDict scenario_catalogue) large_order OverflowError fresh_world);
    vm_compute; reflexivity.
Defined.

Lemma write_results_touches_one_file_witness :
  read_file "notes.txt" (snd (write_results (NFloat (of_Z 9)) (of_Z 2) [] used_world))
  = Some "keep"
  /\ read_file "SalesResults.txt"
       (snd (write_results (NFloat (of_Z 9)) (of_Z 2) [] used_world))
     <> Some "old".
Proof.
  split.
  - rewrite (proj1 (write_results_touches_one_file (NFloat (of_Z 9)) (of_Z 2) []
                      "notes.txt" used_world
                      ltac:(intros E; discriminate E))).
    reflexivity.
  - vm_compute. discriminate.
Defined.


Lemma only_the_time_line_depends_on_the_clock_witness :
  nth_error [ "=== Sales Computation Results ==="; "Total Cost: $9.00";
              "Execution Time: 2.000 seconds";
              newline +:+ "No errors encountered during execution." ] 1
  = nth_error [ "=== Sales Computation Results ==="; "Total Cost: $9.00";
                "Execution Time: 7.000 seconds";
                newline +:+ "No errors encountered during execution." ] 1.
Proof.
  apply (proj2 (only_the_time_line_depends_on_the_clock (NFloat (of_Z 9))
                  (of_Z 2) (of_Z 7) [] _ _ eq_refl eq_refl) 1%nat).
  discriminate.
Defined.

Lemma report_numbers_have_fixed_places_witness :
  exists sign whole places sign' whole' places',
    nth_error [ "=== Sales Computation Results ==="; "Total Cost: $9.00";
                "Execution Time: 2.000 seconds";
                newline +:+ "No errors encountered during execution." ] 1
    = Some ("Total Cost: $" +:+ sign +:+ whole +:+ "." +:+ places)
    /\ String.length places = 2%nat
    /\ nth_error [ "=== Sales Computation Results ==="; "Total Cost: $9.00";
                   "Execution Time: 2.000 seconds";
                   newline +:+ "No errors encountered during execution." ] 2
       = Some ("Execution Time: " +:+ sign' +:+ whole' +:+ "." +:+ places'
                 +:+ " seconds")
    /\ String.length places' = 3%nat
    /\ (sign = "" \/ sign = "-") /\ (sign' = "" \/ sign' = "-").
Proof.
  exact (report_numbers_have_fixed_places (of_Z 9) (of_Z 2) [] _
           eq_refl eq_refl eq_refl).
Defined.

Lemma every_item_errs_or_costs_witness :
  exists items,
    iterated_items mixed_sale = Ok items
    /\ (3 <= List.length items)%nat
    /\ (NFloat (of_Z 6) = NInt 0 <-> 3%nat = List.length items)
    /\ (NFloat (of_Z 6) <> NInt 0 -> is_float (NFloat (of_Z 6)) = true).
Proof.
  apply (every_item_errs_or_costs mixed_sale (VDict scenario_catalogue)
           (NFloat (of_Z 6))
           [ "Product 'Milk' not found in price catalogue";
             "Invalid item in sale S5: Missing product name or quantity";
             "Product 'Milk' not found in price catalogue" ]).
  vm_compute. reflexivity.
Defined.

Lemma messages_have_advisory_form_witness :
  Forall (fun message => advisory_form message = true)
    [ "Product 'Milk' not found in price catalogue";
      "Invalid item in sale S5: Missing product name or quantity";
      "Product 'Milk' not found in price catalogue" ].
Proof.
  apply (messages_have_advisory_form mixed_sale (VDict scenario_catalogue)
           (NFloat (of_Z 6))).
  vm_compute. reflexivity.
Defined.

Lemma escaping_exceptions_witness :
  OverflowError <> ValueError
  /\ (forall d, VDict scenario_catalogue = VDict d -> escapes OverflowError = true).
Proof.
  apply (escaping_exceptions (VDict scenario_catalogue) large_order OverflowError).
  vm_compute. reflexivity.
Defined.

Lemma worded_quantity_is_invalid_price_witness :
  item_step VNone (VDict scenario_catalogue) (NInt 0, []) (VDict worded_quantity)
  = Ok (NInt 0, ["Invalid price for product 'Apple' in price catalogue"]).
Proof.
  apply (worded_quantity_is_invalid_price VNone scenario_catalogue worded_quantity
           "Apple" (VStr "1.50") (NInt 0) []); try reflexivity.
  discriminate.
Defined.

Lemma keyed_items_are_no_items_witness :
  compute_sale_cost (VDict keyed_sale) (VDict scenario_catalogue)
  = Raise AttributeError.
Proof.
  apply (keyed_items_are_no_items keyed_sale (VDict scenario_catalogue)).
  left. exists [("Apple", VInt 4)]. reflexivity.
Defined.

Lemma shapeless_catalogue_prices_nothing_witness :
  exists total messages,
    compute_sale_cost mixed_sale (VStr "Apple") = Ok (total, messages)
    /\ total = NInt 0.
Proof.
  exists (NInt 0). eexists. split.
  - vm_compute. reflexivity.
  - apply (shapeless_catalogue_prices_nothing mixed_sale (VStr "Apple") (NInt 0)
             [ "Product 'Milk' not found in price catalogue";
               "Invalid price for product 'Apple' in price catalogue";
               "Invalid item in sale S5: Missing product name or quantity";
               "Product 'Milk' not found in price catalogue" ] I).
    vm_compute. reflexivity.
Defined.

Lemma null_id_shows_as_none_witness :
  item_step (VDict anonymous_sale) (VDict scenario_catalogue) (NInt 0, [])
            (VDict [("product", VStr "Bread")])
  = Ok (NInt 0, ["Invalid item in sale None: Missing product name or quantity"]).
Proof.
  apply (null_id_shows_as_none anonymous_sale [("product", VStr "Bread")]
           (VDict scenario_catalogue) (NInt 0) []).
  - reflexivity.
  - right. reflexivity.
Defined.

Lemma true_quantity_counts_as_one_witness :
  item_step VNone (VDict scenario_catalogue) (NInt 0, []) (VDict one_apple)
  = Ok (NFloat (of_decimal false 15 (-1)), []).
Proof.
  apply (true_quantity_counts_as_one VNone scenario_catalogue one_apple "Apple"
           (VStr "1.50") (of_decimal false 15 (-1)) (NInt 0) []); try reflexivity.
  discriminate.
Defined.

Lemma nan_sale_makes_the_total_nan_witness :
  exists total messages,
    total_of_sales (VDict nan_catalogue)
      (scenario_sales ++ VDict [("items", VList [VDict one_apple])] :: scenario_sales)
    = Ok (total, messages)
    /\ total = NFloat nan /\ format_number 2 total = Ok "nan".
Proof.
  exists (NFloat nan), []. split.
  - vm_compute. reflexivity.
  - apply (nan_sale_makes_the_total_nan (VDict nan_catalogue) scenario_sales
             scenario_sales (VDict [("items", VList [VDict one_apple])])
             (NFloat nan) [] []).
    + vm_compute. reflexivity.
    + vm_compute. reflexivity.
Defined.
